(** * Voice-capture front end (orchestrator.py): embedding and properties

    The program records a fixed-length window of microphone audio through
    PyAudio, hands the normalized samples to a Whisper model and returns the
    recognized text.  The capture device and the transcription model are
    external collaborators: they are modelled as arbitrary functions of the
    interaction history, which may return a value or raise.

    Python values are embedded as follows.
    - [float] is IEEE binary64 and NumPy's [float32] is binary32, both through
      the executable specification [spec_float] of the Standard Library.
    - [int] is [Z]; [bytes] is [list byte]; [str] is [string].
    - A statement that may raise is a state-and-exception computation
      [Py S A]; the state survives a raise, as in Python. *)

From Stdlib Require Import ZArith List String Ascii Bool Lia QArith Qabs SpecFloat.
From Stdlib.Strings Require Import Byte.
Import ListNotations.
Local Open Scope string_scope.
Local Open Scope Z_scope.

(** ** Exceptions and the statement monad *)

(** An instance of a subclass of [Exception]: its class name and [str(e)].
    [KeyboardInterrupt] and [SystemExit] derive from [BaseException] only and
    are outside the model. *)
Record exn := Exception { exn_class : string; exn_msg : string }.

Definition ValueError (msg : string) := Exception "ValueError" msg.
Definition OverflowError (msg : string) := Exception "OverflowError" msg.
Definition KeyError (msg : string) := Exception "KeyError" msg.
Definition TypeError (msg : string) := Exception "TypeError" msg.
Definition AttributeError (msg : string) := Exception "AttributeError" msg.

Inductive result (A : Type) : Type :=
| Ok (a : A)
| Raise (e : exn).
Arguments Ok {A} a.
Arguments Raise {A} e.

Definition Py (S A : Type) : Type := S -> result A * S.

Definition ret {S A} (a : A) : Py S A := fun s => (Ok a, s).

Definition raise {S A} (e : exn) : Py S A := fun s => (Raise e, s).

Definition bind {S A B} (c : Py S A) (k : A -> Py S B) : Py S B :=
  fun s =>
    match c s with
    | (Ok a, s') => k a s'
    | (Raise e, s') => (Raise e, s')
    end.

(** [try: c  except Exception as e: h e] *)
Definition try_except {S A} (c : Py S A) (h : exn -> Py S A) : Py S A :=
  fun s =>
    match c s with
    | (Ok a, s') => (Ok a, s')
    | (Raise e, s') => h e s'
    end.

Definition lift {S A} (r : result A) : Py S A := fun s => (r, s).

Definition gets {S A} (f : S -> A) : Py S A := fun s => (Ok (f s), s).

Definition modify {S} (f : S -> S) : Py S unit := fun s => (Ok tt, f s).

Declare Scope py_scope.
Delimit Scope py_scope with py.
Notation "x <- c ;; k" := (bind c (fun x => k))
  (at level 61, c at next level, right associativity) : py_scope.
Notation "c ;; k" := (bind c (fun _ => k))
  (at level 61, right associativity) : py_scope.

(** ** Python numbers *)

(** [float(z)] for an [int] within range: the nearest binary64. *)
Definition float_of_int (z : Z) : spec_float := binary_normalize 53 1024 z 0 false.

Definition ZeroDivisionError (msg : string) := Exception "ZeroDivisionError" msg.

(** [a / b] on two [int]s (true division): the correctly rounded quotient.
    The operands the program uses are exactly representable, so the quotient
    of their conversions is the quotient Python computes. *)
Definition py_truediv (a b : Z) : result spec_float :=
  if b =? 0 then Raise (ZeroDivisionError "division by zero")
  else
    match SFdiv 53 1024 (float_of_int a) (float_of_int b) with
    | S754_infinity _ | S754_nan =>
        Raise (OverflowError "integer division result too large for a float")
    | q => Ok q
    end.

(** [x * y] on two [float]s. *)
Definition py_mul (x y : spec_float) : spec_float := SFmul 53 1024 x y.

(** [int(x)] on a [float]: truncation toward zero.  [Z.shiftl] by a negative
    amount is the floor division of the (positive) mantissa. *)
Definition py_int (x : spec_float) : result Z :=
  match x with
  | S754_zero _ => Ok 0
  | S754_finite s m e => Ok (cond_Zopp s (Z.shiftl (Zpos m) e))
  | S754_infinity _ => Raise (OverflowError "cannot convert float infinity to integer")
  | S754_nan => Raise (ValueError "cannot convert float NaN to integer")
  end.

(** The exact value of a finite float; [None] for infinities and NaN. *)
Definition pow2Q (e : Z) : Q :=
  match e with
  | Z0 => 1
  | Zpos p => inject_Z (2 ^ Zpos p)
  | Zneg p => 1 # (2 ^ p)
  end.

Definition SF2Q (x : spec_float) : option Q :=
  match x with
  | S754_zero _ => Some 0%Q
  | S754_finite s m e => Some (inject_Z (cond_Zopp s (Zpos m)) * pow2Q e)%Q
  | S754_infinity _ => None
  | S754_nan => None
  end.

(** [x > 0] on a [float]. *)
Definition float_pos (x : spec_float) : bool :=
  match x with
  | S754_finite false _ _ => true
  | S754_infinity false => true
  | _ => false
  end.

(** ** NumPy: decoding and normalization *)

(** One little-endian two's-complement [int16]. *)
Definition int16_of_bytes (lo hi : byte) : Z :=
  let u := Z.of_N (Byte.to_N lo) + 256 * Z.of_N (Byte.to_N hi) in
  if u <? 32768 then u else u - 65536.

(** [np.frombuffer(data, dtype=np.int16)] *)
Fixpoint frombuffer_int16 (data : list byte) : result (list Z) :=
  match data with
  | [] => Ok []
  | [_] => Raise (ValueError "buffer size must be a multiple of element size")
  | lo :: hi :: rest =>
      match frombuffer_int16 rest with
      | Ok xs => Ok (int16_of_bytes lo hi :: xs)
      | Raise e => Raise e
      end
  end.

(** [np.concatenate(frames)] on one-dimensional arrays. *)
Definition np_concatenate (frames : list (list Z)) : result (list Z) :=
  match frames with
  | [] => Raise (ValueError "need at least one array to concatenate")
  | _ :: _ => Ok (List.concat frames)
  end.

(** [.astype(np.float32)] on one [int16] element. *)
Definition float32_of_int16 (x : Z) : spec_float := binary_normalize 24 128 x 0 false.

(** The scalar [32768.0] as it enters a [float32] array operation. *)
Definition f32_32768 : spec_float := binary_normalize 24 128 32768 0 false.

(** One element of [arr.astype(np.float32) / 32768.0]. *)
Definition normalize_sample (x : Z) : spec_float :=
  SFdiv 24 128 (float32_of_int16 x) f32_32768.

Definition f32_one : spec_float := binary_normalize 24 128 1 0 false.
Definition f32_minus_one : spec_float := binary_normalize 24 128 (-1) 0 false.

(** [lo <= x <= hi] as NumPy compares [float32] values. *)
Definition f32_between (lo hi x : spec_float) : bool :=
  SFleb lo x && SFleb x hi.

(** ** Built-in string and mapping operations *)

(** [c.isspace()] for a code point below 256. *)
Definition py_isspace (c : ascii) : bool :=
  let n := Z.of_nat (nat_of_ascii c) in
  ((9 <=? n) && (n <=? 13)) || ((28 <=? n) && (n <=? 32)) || (n =? 133) || (n =? 160).

Fixpoint lstrip (s : string) : string :=
  match s with
  | EmptyString => EmptyString
  | String c s' => if py_isspace c then lstrip s' else s
  end.

Definition string_rev (s : string) : string :=
  string_of_list_ascii (rev (list_ascii_of_string s)).

Definition rstrip (s : string) : string := string_rev (lstrip (string_rev s)).

(** [s.strip()] *)
Definition str_strip (s : string) : string := rstrip (lstrip s).

(** The values a transcription call may hand back: a plain value or a
    dictionary of plain values. *)
Inductive pyval : Type :=
| PyNone
| PyStr (s : string)
| PyNum (z : Z).

Inductive pyobj : Type :=
| PyVal (v : pyval)
| PyDict (items : list (string * pyval)).

Fixpoint dict_get (items : list (string * pyval)) (key : string) : option pyval :=
  match items with
  | [] => None
  | (k, v) :: rest => if String.eqb k key then Some v else dict_get rest key
  end.

(** [obj[key]] with a string key. *)
Definition py_getitem (obj : pyobj) (key : string) : result pyval :=
  match obj with
  | PyDict items =>
      match dict_get items key with
      | Some v => Ok v
      | None => Raise (KeyError key)
      end
  | PyVal (PyStr _) => Raise (TypeError "string indices must be integers")
  | PyVal PyNone => Raise (TypeError "'NoneType' object is not subscriptable")
  | PyVal (PyNum _) => Raise (TypeError "'int' object is not subscriptable")
  end.

(** [v.strip()], defined on [str] only. *)
Definition py_strip (v : pyval) : result string :=
  match v with
  | PyStr s => Ok (str_strip s)
  | PyNone => Raise (AttributeError "'NoneType' object has no attribute 'strip'")
  | PyNum _ => Raise (AttributeError "'int' object has no attribute 'strip'")
  end.

(** ** The logging module *)

Module logging.

Definition NOTSET : Z := 0.
Definition INFO : Z := 20.
Definition WARNING : Z := 30.
Definition ERROR : Z := 40.

Definition getLevelName (levelno : Z) : string :=
  if levelno =? INFO then "INFO"
  else if levelno =? ERROR then "ERROR"
  else if levelno =? WARNING then "WARNING"
  else "NOTSET".

Record FileHandler := {
  baseFilename : string;
  formatter : string;
  handler_level : Z
}.

Record Logger := {
  level : Z;
  handlers : list FileHandler
}.

(** One line appended to a log file.  The [asctime] field of the format is
    wall-clock time and is left out. *)
Record line := {
  line_file : string;
  line_levelno : Z;
  line_message : string
}.

(** Process-wide state: the logger registry, keyed by name, the directories
    that exist, and every line written so far, oldest first. *)
Record state := {
  loggerDict : list (string * Logger);
  dirs : list string;
  sink : list line
}.

Definition initial : state := {| loggerDict := []; dirs := []; sink := [] |}.

Fixpoint find_logger (d : list (string * Logger)) (name : string) : option Logger :=
  match d with
  | [] => None
  | (n, l) :: rest => if String.eqb n name then Some l else find_logger rest name
  end.

Fixpoint update_logger (d : list (string * Logger)) (name : string) (l : Logger)
  : list (string * Logger) :=
  match d with
  | [] => [(name, l)]
  | (n, l0) :: rest =>
      if String.eqb n name then (n, l) :: rest else (n, l0) :: update_logger rest name l
  end.

(** The logger object registered under [name], created on first use. *)
Definition getLogger (st : state) (name : string) : Logger :=
  match find_logger (loggerDict st) name with
  | Some l => l
  | None => {| level := NOTSET; handlers := [] |}
  end.

Definition put_logger (st : state) (name : string) (l : Logger) : state :=
  {| loggerDict := update_logger (loggerDict st) name l;
     dirs := dirs st;
     sink := sink st |}.

Definition setLevel (name : string) (lvl : Z) (st : state) : state :=
  let l := getLogger st name in
  put_logger st name {| level := lvl; handlers := handlers l |}.

Definition addHandler (name : string) (h : FileHandler) (st : state) : state :=
  let l := getLogger st name in
  put_logger st name {| level := level l; handlers := (handlers l ++ [h])%list |}.

(** [Path(d).mkdir(exist_ok=True)] *)
Definition mkdir (d : string) (st : state) : state :=
  {| loggerDict := loggerDict st;
     dirs := if existsb (String.eqb d) (dirs st) then dirs st else (dirs st ++ [d])%list;
     sink := sink st |}.

(** The root logger keeps its default level and has no handler. *)
Definition getEffectiveLevel (l : Logger) : Z :=
  if level l =? NOTSET then WARNING else level l.

Definition emit (levelno : Z) (msg : string) (h : FileHandler) : list line :=
  if handler_level h <=? levelno
  then [{| line_file := baseFilename h; line_levelno := levelno; line_message := msg |}]
  else [].

(** [Logger.log(levelno, msg)]: every handler of the logger receives the
    record, in the order the handlers were added. *)
Definition log (name : string) (levelno : Z) (msg : string) (st : state) : state :=
  let l := getLogger st name in
  if getEffectiveLevel l <=? levelno
  then {| loggerDict := loggerDict st;
          dirs := dirs st;
          sink := (sink st ++ flat_map (emit levelno msg) (handlers l))%list |}
  else st.

Definition info (name msg : string) : state -> state := log name INFO msg.
Definition error (name msg : string) : state -> state := log name ERROR msg.

End logging.

(** ** The world outside the program *)

Definition handle := nat.

(** Keyword arguments of [PyAudio.open]. *)
Record open_args := {
  oa_format : Z;
  oa_channels : Z;
  oa_rate : Z;
  oa_input : bool;
  oa_frames_per_buffer : Z
}.

(** Keyword arguments of [model.transcribe]. *)
Record decode_opts := {
  fp16 : bool;
  language : string;
  initial_prompt : string
}.

(** One call into a collaborator, with its outcome. *)
Inductive event : Type :=
| EvOpen (args : open_args) (r : result handle)
| EvRead (h : handle) (num_frames : Z) (exception_on_overflow : bool) (r : result (list byte))
| EvStopStream (h : handle) (r : result unit)
| EvClose (h : handle) (r : result unit)
| EvTerminate (r : result unit)
| EvTranscribe (audio : list spec_float) (opts : decode_opts) (r : result pyobj).

(** The capture device: each call answers from the history of calls so far,
    with a value or an exception. *)
Record Device := {
  audio_open : list event -> open_args -> result handle;
  stream_read : list event -> handle -> Z -> bool -> result (list byte);
  stream_stop_stream : list event -> handle -> result unit;
  stream_close : list event -> handle -> result unit;
  audio_terminate : list event -> result unit
}.

(** The transcription model. *)
Record Model := {
  transcribe : list event -> list spec_float -> decode_opts -> result pyobj
}.

Record World := {
  trace : list event;
  stdout : list string;
  stderr : list string;
  log_state : logging.state
}.

Definition initial_world : World :=
  {| trace := []; stdout := []; stderr := []; log_state := logging.initial |}.

(** A call into a collaborator: the outcome is decided by the history and the
    call is appended to it. *)
Definition extern {A} (f : list event -> result A) (ev : result A -> event) : Py World A :=
  fun w =>
    let r := f (trace w) in
    (r, {| trace := (trace w ++ [ev r])%list;
           stdout := stdout w;
           stderr := stderr w;
           log_state := log_state w |}).

Definition print (text : string) : Py World unit :=
  modify (fun w =>
    {| trace := trace w;
       stdout := (stdout w ++ [text])%list;
       stderr := stderr w;
       log_state := log_state w |}).

(** [traceback.print_exc()]: the header and the final line of the report; the
    stack frames between them are left out. *)
Definition traceback_print_exc (e : exn) : Py World unit :=
  modify (fun w =>
    {| trace := trace w;
       stdout := stdout w;
       stderr := (stderr w ++ ["Traceback (most recent call last):";
                               (exn_class e ++ ": " ++ exn_msg e)%string])%list;
       log_state := log_state w |}).

Definition with_logging (f : logging.state -> logging.state) : Py World unit :=
  modify (fun w =>
    {| trace := trace w;
       stdout := stdout w;
       stderr := stderr w;
       log_state := f (log_state w) |}).

(** A statement on the world alone, run next to an object [O]. *)
Definition on_world {O A} (c : Py World A) : Py (O * World) A :=
  fun s =>
    let '(r, w') := c (snd s) in (r, (fst s, w')).

(** ** class SpeechRecognizer *)

(** The abstract base class: one capability, [listen].  The state is the
    implementing object together with the world. *)
Class SpeechRecognizer (R : Type) := {
  listen : Py (R * World) string
}.

(** ** class WhisperRecognizer *)

Definition paInt16 : Z := 8.

(** [self.audio] and [self.model] are the two collaborators; the other
    attributes are the fields below. *)
Record WhisperRecognizer := {
  FORMAT : Z;
  CHANNELS : Z;
  RATE : Z;
  CHUNK : Z;
  RECORD_SECONDS : spec_float;
  stream : option handle
}.

Definition set_stream (s : option handle) (self : WhisperRecognizer) : WhisperRecognizer :=
  {| FORMAT := FORMAT self;
     CHANNELS := CHANNELS self;
     RATE := RATE self;
     CHUNK := CHUNK self;
     RECORD_SECONDS := RECORD_SECONDS self;
     stream := s |}.

(** The fixed keyword arguments of the transcription call. *)
Definition whisper_opts : decode_opts :=
  {| fp16 := false; language := "en"; initial_prompt := "stop listening" |}.

Section Collaborators.

Context (dev : Device) (mdl : Model).

(** [__init__(self, model_size, record_seconds)].  [pyaudio.PyAudio()] and
    [whisper.load_model(model_size)] hand back the two collaborators, which
    are given here.  A [record_seconds] passed as an [int] enters the one
    computation that uses it as the [float] of the same value. *)
Definition WhisperRecognizer_init (model_size : string) (record_seconds : spec_float)
  : Py World WhisperRecognizer :=
  (print ("Loading Whisper " ++ model_size ++ " model...") ;;
   ret {| FORMAT := paInt16;
          CHANNELS := 1;
          RATE := 16000;
          CHUNK := 1024;
          RECORD_SECONDS := record_seconds;
          stream := None |})%py.

(** [__del__(self)].  An exception leaving the body skips the statements
    after it. *)
Definition WhisperRecognizer_del : Py (WhisperRecognizer * World) unit :=
  (self <- gets fst ;;
   match stream self with
   | Some h =>
       on_world (extern (fun t => stream_stop_stream dev t h) (EvStopStream h)) ;;
       on_world (extern (fun t => stream_close dev t h) (EvClose h))
   | None => ret tt
   end ;;
   on_world (extern (audio_terminate dev) EvTerminate))%py.

(** [self.stream.read(self.CHUNK, exception_on_overflow=False)] *)
Definition read_chunk : Py (WhisperRecognizer * World) (list byte) :=
  (self <- gets fst ;;
   match stream self with
   | Some h =>
       on_world (extern (fun t => stream_read dev t h (CHUNK self) false)
                        (EvRead h (CHUNK self) false))
   | None => raise (AttributeError "'NoneType' object has no attribute 'read'")
   end)%py.

(** The body of the [for] loop, run [n] times, threading [frames]. *)
Fixpoint read_frames (n : nat) (frames : list (list Z))
  : Py (WhisperRecognizer * World) (list (list Z)) :=
  match n with
  | O => ret frames
  | S n' =>
      (frames' <- try_except
                    (data <- read_chunk ;;
                     arr <- lift (frombuffer_int16 data) ;;
                     ret (frames ++ [arr])%list)
                    (fun e =>
                       on_world (print ("Error reading audio chunk: " ++ exn_msg e)) ;;
                       ret frames) ;;
       read_frames n' frames')%py
  end.

(** [int(self.RATE / self.CHUNK * self.RECORD_SECONDS)] *)
Definition n_chunks (self : WhisperRecognizer) : result Z :=
  match py_truediv (RATE self) (CHUNK self) with
  | Ok q => py_int (py_mul q (RECORD_SECONDS self))
  | Raise e => Raise e
  end.

Definition _record_audio : Py (WhisperRecognizer * World) (list spec_float) :=
  (self <- gets fst ;;
   match stream self with
   | None =>
       let args := {| oa_format := FORMAT self;
                      oa_channels := CHANNELS self;
                      oa_rate := RATE self;
                      oa_input := true;
                      oa_frames_per_buffer := CHUNK self |} in
       h <- on_world (extern (fun t => audio_open dev t args) (EvOpen args)) ;;
       modify (fun s => (set_stream (Some h) (fst s), snd s))
   | Some _ => ret tt
   end ;;
   self <- gets fst ;;
   n <- lift (n_chunks self) ;;
   frames <- read_frames (Z.to_nat n) [] ;;
   arr <- lift (np_concatenate frames) ;;
   ret (map normalize_sample arr))%py.

(** The statements of [listen] that follow the recording, inside its [try]:
    the call of the model, the trimming and the debug line. *)
Definition transcribe_audio (audio_data : list spec_float)
  : Py (WhisperRecognizer * World) string :=
  (result <- on_world (extern (fun t => transcribe mdl t audio_data whisper_opts)
                              (EvTranscribe audio_data whisper_opts)) ;;
   item <- lift (py_getitem result "text") ;;
   text <- lift (py_strip item) ;;
   on_world (print ("[DEBUG] Raw transcription: '" ++ text ++ "'")) ;;
   ret text)%py.

(** The statements of [listen] inside its [try]. *)
Definition listen_body : Py (WhisperRecognizer * World) string :=
  (audio_data <- _record_audio ;;
   transcribe_audio audio_data)%py.

Definition WhisperRecognizer_listen : Py (WhisperRecognizer * World) string :=
  try_except listen_body
    (fun e =>
       (on_world (print ("Error during speech recognition: " ++ exn_msg e)) ;;
        on_world (traceback_print_exc e) ;;
        ret "")%py).

#[export] Instance WhisperRecognizer_SpeechRecognizer : SpeechRecognizer WhisperRecognizer :=
  {| listen := WhisperRecognizer_listen |}.

End Collaborators.

(** ** class SpeechHandler *)

(** [self.logger] refers to the process-wide logger object, named here by its
    registry key.  [self.recognizer] refers to a recognizer object that lives
    in the state of the methods, so that handlers may share it. *)
Record SpeechHandler := {
  logger : string
}.

Definition _setup_logging : Py World SpeechHandler :=
  (with_logging (logging.mkdir "logs") ;;
   with_logging (logging.setLevel "SpeechHandler" logging.INFO) ;;
   with_logging (logging.addHandler "SpeechHandler"
                   {| logging.baseFilename := "logs/speech.log";
                      logging.formatter := "%(asctime)s - %(levelname)s - %(message)s";
                      logging.handler_level := logging.NOTSET |}) ;;
   ret {| logger := "SpeechHandler" |})%py.

(** [__init__(self, recognizer)] *)
Definition SpeechHandler_init : Py World SpeechHandler :=
  (self <- _setup_logging ;;
   with_logging (logging.info (logger self) "Speech Handler initialized") ;;
   ret self)%py.

Definition SpeechHandler_listen {R} `{SpeechRecognizer R} (self : SpeechHandler)
  : Py (R * World) string :=
  try_except
    (on_world (with_logging (logging.info (logger self) "Starting to listen...")) ;;
     text <- listen ;;
     on_world (with_logging (logging.info (logger self) ("Heard: " ++ text))) ;;
     ret text)%py
    (fun e =>
       (on_world (with_logging
                    (logging.error (logger self) ("Error while listening: " ++ exn_msg e))) ;;
        ret "")%py).

(** ** Test doubles for the collaborators *)

Definition OSError (msg : string) := Exception "OSError" msg.

(** A device that opens as stream 0 and answers every read with
    [num_frames] zero samples. *)
Definition silent_device : Device :=
  {| audio_open := fun _ _ => Ok 0%nat;
     stream_read := fun _ _ num_frames _ => Ok (repeat x00 (2 * Z.to_nat num_frames));
     stream_stop_stream := fun _ _ => Ok tt;
     stream_close := fun _ _ => Ok tt;
     audio_terminate := fun _ => Ok tt |}.

(** A device whose every read raises. *)
Definition failing_device : Device :=
  {| audio_open := fun _ _ => Ok 0%nat;
     stream_read := fun _ _ _ _ => Raise (OSError "[Errno -9988] Stream closed");
     stream_stop_stream := fun _ _ => Ok tt;
     stream_close := fun _ _ => Ok tt;
     audio_terminate := fun _ => Ok tt |}.

(** A device whose [stop_stream] raises. *)
Definition stuck_device : Device :=
  {| audio_open := fun _ _ => Ok 0%nat;
     stream_read := fun _ _ num_frames _ => Ok (repeat x00 (2 * Z.to_nat num_frames));
     stream_stop_stream := fun _ _ => Raise (OSError "[Errno -9988] Stream closed");
     stream_close := fun _ _ => Ok tt;
     audio_terminate := fun _ => Ok tt |}.

(** A model that answers every call with [{"text": " hello "}]. *)
Definition hello_model : Model :=
  {| transcribe := fun _ _ _ => Ok (PyDict [("text", PyStr " hello ")]) |}.

(** The literals [0.1], [0.05], [0.064] and [5] as binary64 values. *)
Definition seconds_0_1 : spec_float := S754_finite false 7205759403792794 (-56).
Definition seconds_0_05 : spec_float := S754_finite false 7205759403792794 (-57).
Definition seconds_0_064 : spec_float := S754_finite false 4611686018427388 (-56).
Definition seconds_5 : spec_float := float_of_int 5.

(** A duration of [2 ^ 60 + 2 ^ 8] seconds, far beyond any recording. *)
Definition seconds_huge : spec_float := S754_finite false 4503599627370497 8.

(** The recognizer [WhisperRecognizer(record_seconds=d)] once constructed. *)
Definition recognizer_with (d : spec_float) : WhisperRecognizer :=
  {| FORMAT := paInt16;
     CHANNELS := 1;
     RATE := 16000;
     CHUNK := 1024;
     RECORD_SECONDS := d;
     stream := None |}.

(** ** Observations on a run *)

(** The outcomes of the [n] reads the loop performs on stream [h], starting
    from history [t]. *)
Fixpoint reads (dev : Device) (h : handle) (chunk : Z) (n : nat) (t : list event)
  : list (result (list byte)) :=
  match n with
  | O => []
  | S n' =>
      let r := stream_read dev t h chunk false in
      r :: reads dev h chunk n' (t ++ [EvRead h chunk false r])%list
  end.

(** What one read contributes to [frames]. *)
Definition frame_of (r : result (list byte)) : list (list Z) :=
  match r with
  | Ok data =>
      match frombuffer_int16 data with
      | Ok arr => [arr]
      | Raise _ => []
      end
  | Raise _ => []
  end.

(** What one read makes the loop print. *)
Definition complaint_of (r : result (list byte)) : list string :=
  match r with
  | Ok data =>
      match frombuffer_int16 data with
      | Ok _ => []
      | Raise e => ["Error reading audio chunk: " ++ exn_msg e]
      end
  | Raise e => ["Error reading audio chunk: " ++ exn_msg e]
  end.

(** The arguments [_record_audio] opens the stream with. *)
Definition stream_args (self : WhisperRecognizer) : open_args :=
  {| oa_format := FORMAT self;
     oa_channels := CHANNELS self;
     oa_rate := RATE self;
     oa_input := true;
     oa_frames_per_buffer := CHUNK self |}.

Definition log_event (ev : event) (w : World) : World :=
  {| trace := (trace w ++ [ev])%list;
     stdout := stdout w;
     stderr := stderr w;
     log_state := log_state w |}.

(** The world after the loop has read [rs] from stream [h]. *)
Definition after_reads (h : handle) (chunk : Z) (rs : list (result (list byte))) (w : World)
  : World :=
  {| trace := (trace w ++ map (EvRead h chunk false) rs)%list;
     stdout := (stdout w ++ flat_map complaint_of rs)%list;
     stderr := stderr w;
     log_state := log_state w |}.

(** What [_record_audio] amounts to once [self.stream] is the open stream
    [h]: the chunk count, the reads, the concatenation and the scaling. *)
Definition record_outcome (dev : Device) (h : handle) (self : WhisperRecognizer) (w : World)
  : result (list spec_float) * (WhisperRecognizer * World) :=
  match n_chunks self with
  | Raise e => (Raise e, (self, w))
  | Ok n =>
      let rs := reads dev h (CHUNK self) (Z.to_nat n) (trace w) in
      (match np_concatenate (flat_map frame_of rs) with
       | Ok arr => Ok (map normalize_sample arr)
       | Raise e => Raise e
       end,
       (self, after_reads h (CHUNK self) rs w))
  end.

(** The world after the [except] branch of [WhisperRecognizer.listen] has
    reported [e]. *)
Definition report_failure (e : exn) (w : World) : World :=
  {| trace := trace w;
     stdout := (stdout w ++ [("Error during speech recognition: " ++ exn_msg e)%string])%list;
     stderr := (stderr w ++ ["Traceback (most recent call last):";
                             (exn_class e ++ ": " ++ exn_msg e)%string])%list;
     log_state := log_state w |}.

(** The world after a logging call. *)
Definition logged (f : logging.state -> logging.state) (w : World) : World :=
  {| trace := trace w; stdout := stdout w; stderr := stderr w; log_state := f (log_state w) |}.

(** The state after [n] calls of [listen] in a row. *)
Fixpoint after_listens (dev : Device) (mdl : Model) (n : nat)
  (s : WhisperRecognizer * World) : WhisperRecognizer * World :=
  match n with
  | O => s
  | S n' => after_listens dev mdl n' (snd (WhisperRecognizer_listen dev mdl s))
  end.

(** Calls of [PyAudio.open] in a history, and those that returned a stream. *)
Definition is_open (ev : event) : bool :=
  match ev with
  | EvOpen _ _ => true
  | _ => false
  end.

Definition is_opened (ev : event) : bool :=
  match ev with
  | EvOpen _ (Ok _) => true
  | _ => false
  end.

Definition open_calls (t : list event) : nat := List.length (filter is_open t).
Definition streams_opened (t : list event) : nat := List.length (filter is_opened t).

(** The stream field and the count of opened streams agree. *)
Definition stream_counted (s : WhisperRecognizer * World) : Prop :=
  match stream (fst s) with
  | None => streams_opened (trace (snd s)) = 0%nat
  | Some _ => streams_opened (trace (snd s)) = 1%nat
  end.

(** The calls a statement has added to the history of [w]. *)
Definition new_events (w : World) (s1 : WhisperRecognizer * World) : list event :=
  skipn (List.length (trace w)) (trace (snd s1)).

Definition is_read (ev : event) : bool :=
  match ev with
  | EvRead _ _ _ _ => true
  | _ => false
  end.

Definition is_terminate (ev : event) : bool :=
  match ev with
  | EvTerminate _ => true
  | _ => false
  end.

Definition is_transcribe (ev : event) : bool :=
  match ev with
  | EvTranscribe _ _ _ => true
  | _ => false
  end.

(** Lines of a given level in the log sink. *)
Definition lines_at (levelno : Z) (st : logging.state) : list logging.line :=
  filter (fun l => logging.line_levelno l =? levelno) (logging.sink st).

(** The world after [k] handlers have been constructed in a row. *)
Fixpoint after_inits (k : nat) (w : World) : World :=
  match k with
  | O => w
  | S k' => after_inits k' (snd (SpeechHandler_init w))
  end.

Definition speech_log_line (levelno : Z) (msg : string) : logging.line :=
  {| logging.line_file := "logs/speech.log";
     logging.line_levelno := levelno;
     logging.line_message := msg |}.

(** The handler every construction returns. *)
Definition the_handler : SpeechHandler := {| logger := "SpeechHandler" |}.

(** [handler.listen()] on a handler that wraps a [WhisperRecognizer]. *)
Definition handler_listen (dev : Device) (mdl : Model) (self : SpeechHandler)
  : Py (WhisperRecognizer * World) string :=
  @SpeechHandler_listen WhisperRecognizer (WhisperRecognizer_SpeechRecognizer dev mdl) self.

(** The check that one raw sample is scaled into [[-1.0, 1.0]] and that the
    scaled value is exactly the raw one divided by 32768. *)
Definition sample_ok (x : Z) : bool :=
  f32_between f32_minus_one f32_one (normalize_sample x) &&
  match SF2Q (normalize_sample x) with
  | Some q => Qeq_bool q (x # 32768)
  | None => false
  end.

(** [p] on the [n] integers from [lo] upwards. *)
Fixpoint all_from (p : Z -> bool) (lo : Z) (n : nat) : bool :=
  match n with
  | O => true
  | S n' => p lo && all_from p (lo + 1) n'
  end.

Definition is_int16 (x : Z) : Prop := -32768 <= x <= 32767.

(** The file handler every [_setup_logging] adds. *)
Definition speech_file_handler : logging.FileHandler :=
  {| logging.baseFilename := "logs/speech.log";
     logging.formatter := "%(asctime)s - %(levelname)s - %(message)s";
     logging.handler_level := logging.NOTSET |}.

(** The line with which [SpeechHandler.listen] ends, by the outcome of the
    recognizer. *)
Definition closing_line (r : result string) : logging.line :=
  match r with
  | Ok text => speech_log_line logging.INFO ("Heard: " ++ text)
  | Raise e => speech_log_line logging.ERROR ("Error while listening: " ++ exn_msg e)
  end.

(** What [__del__] asks of the device when nothing raises before
    [terminate]. *)
Definition teardown_calls (dev : Device) (self : WhisperRecognizer) (t : list event)
  : list event :=
  match stream self with
  | Some h =>
      [EvStopStream h (Ok tt); EvClose h (Ok tt);
       EvTerminate (audio_terminate dev
                      (t ++ [EvStopStream h (Ok tt); EvClose h (Ok tt)])%list)]
  | None => [EvTerminate (audio_terminate dev t)]
  end.

(** [16000 / 1024], the chunks per second: 15.625, exactly. *)
Definition rate_per_chunk : spec_float := S754_finite false 8796093022208000 (-49).

(** ** The script at the end of the module *)



(** ** Further observations *)

Definition is_stop (ev : event) : bool :=
  match ev with
  | EvStopStream _ _ => true
  | _ => false
  end.

Definition is_close (ev : event) : bool :=
  match ev with
  | EvClose _ _ => true
  | _ => false
  end.

(** A read whose bytes the loop keeps: it returned, with an even number of
    bytes. *)
Definition kept (r : result (list byte)) : bool :=
  match r with
  | Ok data => Nat.even (List.length data)
  | Raise _ => false
  end.

(** The samples a read contributes to the buffer. *)
Definition samples_of (r : result (list byte)) : nat :=
  if kept r
  then match r with
       | Ok data => Nat.div2 (List.length data)
       | Raise _ => 0
       end
  else 0.

Definition starts_with_space (s : string) : bool :=
  match s with
  | EmptyString => false
  | String c _ => py_isspace c
  end.

Definition ends_with_space (s : string) : bool := starts_with_space (string_rev s).

(** The text [listen] returns for an outcome of the model. *)
Definition text_of (r : result pyobj) : string :=
  match r with
  | Ok (PyDict items) =>
      match dict_get items "text" with
      | Some (PyStr s) => str_strip s
      | _ => ""
      end
  | _ => ""
  end.

(** A device that opens as stream 0 and whose reads raise whenever the
    history holds an even number of calls. *)
Definition flaky_device : Device :=
  {| audio_open := fun _ _ => Ok 0%nat;
     stream_read := fun t _ num_frames _ =>
       if Nat.even (List.length t)
       then Raise (OSError "[Errno -9981] Input overflowed")
       else Ok (repeat x00 (2 * Z.to_nat num_frames));
     stream_stop_stream := fun _ _ => Ok tt;
     stream_close := fun _ _ => Ok tt;
     audio_terminate := fun _ => Ok tt |}.

(** A device that cannot be opened. *)
Definition absent_device : Device :=
  {| audio_open := fun _ _ => Raise (OSError "[Errno -9996] Invalid input device");
     stream_read := fun _ _ _ _ => Raise (OSError "[Errno -9988] Stream closed");
     stream_stop_stream := fun _ _ => Ok tt;
     stream_close := fun _ _ => Ok tt;
     audio_terminate := fun _ => Ok tt |}.

(** The literal [0.2] as a binary64 value. *)
Definition seconds_0_2 : spec_float := S754_finite false 7205759403792794 (-55).

(** * Properties *)

(** ** The statement monad *)

Lemma world_eta (w : World) :
  {| trace := trace w; stdout := stdout w; stderr := stderr w; log_state := log_state w |} = w.
Proof. now destruct w. Qed.

Ltac run_py :=
  unfold bind, try_except, on_world, extern, print, traceback_print_exc, with_logging,
         modify, gets, lift, ret, raise;
  cbn [fst snd trace stdout stderr log_state].

(** ** The reading loop *)

Section Loop.

Context (dev : Device).

Lemma read_frames_run (n : nat) :
  forall frames self w h,
    stream self = Some h ->
    read_frames dev n frames (self, w) =
      (Ok (frames ++ flat_map frame_of (reads dev h (CHUNK self) n (trace w)))%list,
       (self,
        {| trace := (trace w ++ map (EvRead h (CHUNK self) false)
                                   (reads dev h (CHUNK self) n (trace w)))%list;
           stdout := (stdout w ++ flat_map complaint_of
                                     (reads dev h (CHUNK self) n (trace w)))%list;
           stderr := stderr w;
           log_state := log_state w |})).
Proof.
  induction n as [|n IH]; intros frames self w h Hs.
  - cbn. rewrite !app_nil_r, world_eta. reflexivity.
  - cbn [read_frames reads]. unfold read_chunk. run_py. rewrite Hs.
    cbn [fst snd trace stdout stderr log_state].
    destruct (stream_read dev (trace w) h (CHUNK self) false) as [data|e] eqn:Hr;
      [destruct (frombuffer_int16 data) as [arr|e] eqn:Hd|];
      rewrite (IH _ _ _ h) by assumption;
      cbn [fst snd trace stdout stderr log_state flat_map map frame_of complaint_of];
      rewrite ?Hd; cbn [app]; rewrite <- ?app_assoc; reflexivity.
Qed.

End Loop.

(** ** Recording *)

Section Recording.

Context (dev : Device).

Lemma record_audio_open self w h :
  stream self = Some h ->
  _record_audio dev (self, w) = record_outcome dev h self w.
Proof.
  intros Hs. unfold _record_audio, record_outcome. run_py. rewrite Hs.
  cbn [fst snd]. destruct (n_chunks self) as [n|e]; [|reflexivity].
  rewrite (read_frames_run dev _ _ _ _ h Hs). cbn [app fst snd].
  unfold after_reads.
  destruct (np_concatenate _); reflexivity.
Qed.

Lemma record_audio_closed self w :
  stream self = None ->
  _record_audio dev (self, w) =
    match audio_open dev (trace w) (stream_args self) with
    | Ok h =>
        record_outcome dev h (set_stream (Some h) self)
          (log_event (EvOpen (stream_args self) (Ok h)) w)
    | Raise e => (Raise e, (self, log_event (EvOpen (stream_args self) (Raise e)) w))
    end.
Proof.
  intros Hs. unfold _record_audio, record_outcome. run_py. rewrite Hs.
  cbn [fst snd]. fold (stream_args self).
  destruct (audio_open dev (trace w) (stream_args self)) as [h|e]; [|reflexivity].
  cbn [fst snd]. unfold log_event.
  change (n_chunks (set_stream (Some h) self)) with (n_chunks self).
  destruct (n_chunks self) as [n|e]; [|reflexivity].
  rewrite (read_frames_run dev _ _ _ _ h) by reflexivity. cbn [app fst snd].
  unfold after_reads. cbn [trace stdout stderr log_state set_stream CHUNK].
  destruct (np_concatenate _); reflexivity.
Qed.

End Recording.

(** ** Listening *)

Section Listening.

Context (dev : Device) (mdl : Model).

Lemma listen_run s :
  WhisperRecognizer_listen dev mdl s =
    match listen_body dev mdl s with
    | (Ok text, s1) => (Ok text, s1)
    | (Raise e, s1) => (Ok "", (fst s1, report_failure e (snd s1)))
    end.
Proof.
  unfold WhisperRecognizer_listen, try_except.
  destruct (listen_body dev mdl s) as [[text|e] s1]; [reflexivity|].
  run_py. reflexivity.
Qed.

Lemma listen_total s : exists text, fst (WhisperRecognizer_listen dev mdl s) = Ok text.
Proof.
  rewrite listen_run. destruct (listen_body dev mdl s) as [[text|e] s1]; eexists; reflexivity.
Qed.

Lemma listen_body_raises s e :
  fst (listen_body dev mdl s) = Raise e ->
  fst (WhisperRecognizer_listen dev mdl s) = Ok "".
Proof.
  intros H. rewrite listen_run.
  destruct (listen_body dev mdl s) as [[text|e'] s1]; [discriminate|reflexivity].
Qed.

Lemma record_raises_body_raises s e :
  fst (_record_audio dev s) = Raise e -> fst (listen_body dev mdl s) = Raise e.
Proof.
  intros H. unfold listen_body, bind.
  destruct (_record_audio dev s) as [[a|e'] s1]; [discriminate|].
  cbn in *. congruence.
Qed.

Lemma transcribe_raises_body_raises s audio s1 e :
  _record_audio dev s = (Ok audio, s1) ->
  transcribe mdl (trace (snd s1)) audio whisper_opts = Raise e ->
  fst (listen_body dev mdl s) = Raise e.
Proof.
  intros Hrec Htr. unfold listen_body, bind. rewrite Hrec.
  unfold transcribe_audio. run_py. rewrite Htr. reflexivity.
Qed.

(** The recognizer never touches the logging state. *)
Lemma record_outcome_log h self w :
  log_state (snd (snd (record_outcome dev h self w))) = log_state w.
Proof.
  unfold record_outcome. destruct (n_chunks self); reflexivity.
Qed.

Lemma record_audio_log s :
  log_state (snd (snd (_record_audio dev s))) = log_state (snd s).
Proof.
  destruct s as [self w]. destruct (stream self) as [h|] eqn:Hs.
  - rewrite (record_audio_open dev self w h Hs). apply record_outcome_log.
  - rewrite (record_audio_closed dev self w Hs).
    destruct (audio_open dev (trace w) (stream_args self)); [|reflexivity].
    rewrite record_outcome_log. reflexivity.
Qed.

Lemma listen_body_log s :
  log_state (snd (snd (listen_body dev mdl s))) = log_state (snd s).
Proof.
  unfold listen_body, bind.
  pose proof (record_audio_log s) as H.
  destruct (_record_audio dev s) as [[audio|e] s1]; [|exact H].
  unfold transcribe_audio. run_py. cbn [fst snd] in H.
  destruct (transcribe mdl (trace (snd s1)) audio whisper_opts) as [res|e]; [|exact H].
  destruct (py_getitem res "text") as [item|e]; [|exact H].
  destruct (py_strip item) as [text|e]; exact H.
Qed.

Lemma listen_log s :
  log_state (snd (snd (WhisperRecognizer_listen dev mdl s))) = log_state (snd s).
Proof.
  rewrite listen_run. pose proof (listen_body_log s) as H.
  destruct (listen_body dev mdl s) as [[text|e] s1]; exact H.
Qed.

End Listening.

(** ** The session handler *)

Section Handler.

Context {R : Type} {SR : SpeechRecognizer R}.

Lemma handler_listen_run (self : SpeechHandler) (r : R) (w : World) :
  SpeechHandler_listen self (r, w) =
    match listen (r, logged (logging.info (logger self) "Starting to listen...") w) with
    | (Ok text, (r1, w1)) =>
        (Ok text, (r1, logged (logging.info (logger self) ("Heard: " ++ text)) w1))
    | (Raise e, (r1, w1)) =>
        (Ok "", (r1, logged (logging.error (logger self)
                                ("Error while listening: " ++ exn_msg e)) w1))
    end.
Proof.
  unfold SpeechHandler_listen. run_py. fold (logged (logging.info (logger self) "Starting to listen...") w).
  destruct (listen _) as [[text|e] [r1 w1]]; reflexivity.
Qed.

Lemma handler_listen_total (self : SpeechHandler) (s : R * World) :
  exists text, fst (SpeechHandler_listen self s) = Ok text.
Proof.
  destruct s as [r w]. rewrite handler_listen_run.
  destruct (listen _) as [[text|e] [r1 w1]]; eexists; reflexivity.
Qed.

End Handler.

(** ** Failure never reaches the caller *)

Lemma reads_all_fail (dev : Device) h chunk n :
  (forall t h n b, exists e, stream_read dev t h n b = Raise e) ->
  forall t, flat_map frame_of (reads dev h chunk n t) = [].
Proof.
  intros Hfail. induction n as [|n IH]; intros t; [reflexivity|].
  cbn [reads flat_map]. rewrite IH.
  destruct (Hfail t h chunk false) as [e He]. rewrite He. reflexivity.
Qed.

Lemma record_outcome_all_fail (dev : Device) h self w :
  (forall t h n b, exists e, stream_read dev t h n b = Raise e) ->
  exists e, fst (record_outcome dev h self w) = Raise e /\
            (forall n, n_chunks self = Ok n ->
                       e = ValueError "need at least one array to concatenate").
Proof.
  intros Hfail. unfold record_outcome.
  destruct (n_chunks self) as [n|e].
  - rewrite (reads_all_fail dev h _ _ Hfail). cbn. eexists; split; reflexivity.
  - exists e. split; [reflexivity|]. intros n Hn. discriminate.
Qed.

Lemma record_audio_all_fail (dev : Device) self w :
  (forall t h n b, exists e, stream_read dev t h n b = Raise e) ->
  exists e, fst (_record_audio dev (self, w)) = Raise e /\
            (forall n, n_chunks self = Ok n ->
               (stream self <> None \/
                exists h, audio_open dev (trace w) (stream_args self) = Ok h) ->
               e = ValueError "need at least one array to concatenate").
Proof.
  intros Hfail. destruct (stream self) as [h|] eqn:Hs.
  - rewrite (record_audio_open dev self w h Hs).
    destruct (record_outcome_all_fail dev h self w Hfail) as (e & He & Hv).
    exists e. split; [exact He|]. intros n Hn _. exact (Hv n Hn).
  - rewrite (record_audio_closed dev self w Hs).
    destruct (audio_open dev (trace w) (stream_args self)) as [h|e] eqn:Ho.
    + destruct (record_outcome_all_fail dev h (set_stream (Some h) self)
                  (log_event (EvOpen (stream_args self) (Ok h)) w) Hfail) as (e & He & Hv).
      exists e. split; [exact He|]. intros n Hn _. exact (Hv n Hn).
    + exists e. split; [reflexivity|]. intros n Hn [H|[h H]]; [congruence|discriminate].
Qed.

(** C1. For every recognizer state and every behaviour of the capture device
    and of the transcription model, raising included,
    [WhisperRecognizer.listen()] returns a string: it never hands an exception
    to its caller.  When recording raises, when the model raises, or when any
    other statement of the [try] block raises, the string is the empty one.
    [SpeechHandler.listen()] likewise returns a string for every recognizer
    implementation, the empty one when the recognizer raises. *)
Theorem listen_never_raises :
  forall (dev : Device) (mdl : Model) (self : WhisperRecognizer) (w : World),
    (exists text, fst (WhisperRecognizer_listen dev mdl (self, w)) = Ok text) /\
    (forall e, fst (_record_audio dev (self, w)) = Raise e ->
               fst (WhisperRecognizer_listen dev mdl (self, w)) = Ok "") /\
    (forall audio s1 e,
        _record_audio dev (self, w) = (Ok audio, s1) ->
        transcribe mdl (trace (snd s1)) audio whisper_opts = Raise e ->
        fst (WhisperRecognizer_listen dev mdl (self, w)) = Ok "") /\
    (forall e, fst (listen_body dev mdl (self, w)) = Raise e ->
               fst (WhisperRecognizer_listen dev mdl (self, w)) = Ok "") /\
    (forall (R : Type) (SR : SpeechRecognizer R) (handler : SpeechHandler) (r : R),
        (exists text, fst (SpeechHandler_listen handler (r, w)) = Ok text) /\
        (forall e,
            fst (listen (r, logged (logging.info (logger handler) "Starting to listen...") w))
              = Raise e ->
            fst (SpeechHandler_listen handler (r, w)) = Ok "")).
Proof.
  intros dev mdl self w. repeat split.
  - apply listen_total.
  - intros e H. eapply listen_body_raises, record_raises_body_raises, H.
  - intros audio s1 e Hrec Htr.
    eapply listen_body_raises, transcribe_raises_body_raises; eassumption.
  - intros e H. eapply listen_body_raises, H.
  - apply handler_listen_total.
  - intros e H. rewrite handler_listen_run.
    destruct (listen _) as [[text|e'] [r1 w1]]; [discriminate|reflexivity].
Qed.

(** Events of a kind that neither opening nor reading produces are left
    as they were by [_record_audio]. *)
Lemma filter_reads (f : event -> bool) h chunk rs :
  (forall h c b r, f (EvRead h c b r) = false) ->
  filter f (map (EvRead h chunk false) rs) = [].
Proof.
  intros Hf. induction rs as [|r rs IH]; [reflexivity|].
  cbn. rewrite Hf. exact IH.
Qed.

Lemma record_outcome_filter (f : event -> bool) dev h self w :
  (forall h c b r, f (EvRead h c b r) = false) ->
  filter f (trace (snd (snd (record_outcome dev h self w)))) = filter f (trace w).
Proof.
  intros Hf. unfold record_outcome. destruct (n_chunks self) as [n|e]; [|reflexivity].
  cbn [snd after_reads trace]. rewrite filter_app, filter_reads by exact Hf.
  apply app_nil_r.
Qed.

Lemma record_audio_filter (f : event -> bool) dev s :
  (forall h c b r, f (EvRead h c b r) = false) ->
  (forall a r, f (EvOpen a r) = false) ->
  filter f (trace (snd (snd (_record_audio dev s)))) = filter f (trace (snd s)).
Proof.
  intros Hf Ho. destruct s as [self w]. destruct (stream self) as [h|] eqn:Hs.
  - rewrite (record_audio_open dev self w h Hs). now apply record_outcome_filter.
  - rewrite (record_audio_closed dev self w Hs).
    destruct (audio_open dev (trace w) (stream_args self)) as [h|e].
    + rewrite record_outcome_filter by exact Hf.
      cbn [log_event trace snd]. rewrite filter_app. cbn. rewrite Ho. apply app_nil_r.
    + cbn [log_event trace snd]. rewrite filter_app. cbn. rewrite Ho. apply app_nil_r.
Qed.

Lemma listen_trace_when_record_raises dev mdl s e :
  fst (_record_audio dev s) = Raise e ->
  trace (snd (snd (WhisperRecognizer_listen dev mdl s))) =
  trace (snd (snd (_record_audio dev s))).
Proof.
  intros H. rewrite listen_run. unfold listen_body, bind.
  destruct (_record_audio dev s) as [[a|e'] s1]; [discriminate|reflexivity].
Qed.

(** C2.  When every read of the device raises, no frame is collected and
    [_record_audio] raises instead of returning an empty buffer: with a valid
    chunk count and an open stream the exception is the [ValueError] of
    [np.concatenate] on an empty list.  [listen()] still returns the empty
    string, through its [except] branch, and the model is not called. *)
Theorem record_audio_raises_when_all_reads_fail :
  forall (dev : Device) (mdl : Model) (self : WhisperRecognizer) (w : World),
    (forall t h n b, exists e, stream_read dev t h n b = Raise e) ->
    (exists e, fst (_record_audio dev (self, w)) = Raise e) /\
    (forall n, n_chunks self = Ok n ->
       (stream self <> None \/
        exists h, audio_open dev (trace w) (stream_args self) = Ok h) ->
       fst (_record_audio dev (self, w)) =
         Raise (ValueError "need at least one array to concatenate")) /\
    fst (WhisperRecognizer_listen dev mdl (self, w)) = Ok "" /\
    filter is_transcribe (trace (snd (snd (WhisperRecognizer_listen dev mdl (self, w)))))
      = filter is_transcribe (trace w).
Proof.
  intros dev mdl self w Hfail.
  destruct (record_audio_all_fail dev self w Hfail) as (e & He & Hv).
  repeat split.
  - exists e. exact He.
  - intros n Hn Ho. rewrite He. f_equal. exact (Hv n Hn Ho).
  - eapply listen_body_raises, record_raises_body_raises, He.
  - rewrite (listen_trace_when_record_raises dev mdl _ e He).
    now rewrite record_audio_filter.
Qed.

Lemma record_audio_raises_when_all_reads_fail_witness :
  fst (_record_audio failing_device (recognizer_with seconds_0_1, initial_world)) =
    Raise (ValueError "need at least one array to concatenate") /\
  fst (WhisperRecognizer_listen failing_device hello_model
         (recognizer_with seconds_0_1, initial_world)) = Ok "".
Proof.
  destruct (record_audio_raises_when_all_reads_fail failing_device hello_model
              (recognizer_with seconds_0_1) initial_world) as (_ & Hv & Hl & _).
  - intros t h n b. eexists. reflexivity.
  - split; [|exact Hl].
    apply (Hv 1); [vm_compute; reflexivity|].
    right. exists 0%nat. reflexivity.
Defined.

(** ** What reaches the log sink *)

Lemma emit_other_level (lv lv' : Z) msg hs :
  (lv =? lv') = false ->
  filter (fun l => logging.line_levelno l =? lv') (flat_map (logging.emit lv msg) hs) = [].
Proof.
  intros Hne. induction hs as [|h hs IH]; [reflexivity|].
  cbn [flat_map]. rewrite filter_app, IH, app_nil_r.
  unfold logging.emit. destruct (logging.handler_level h <=? lv); [|reflexivity].
  cbn. now rewrite Hne.
Qed.

Lemma log_other_level (lv lv' : Z) name msg st :
  (lv =? lv') = false ->
  lines_at lv' (logging.log name lv msg st) = lines_at lv' st.
Proof.
  intros Hne. unfold lines_at, logging.log.
  destruct (logging.getEffectiveLevel _ <=? lv); [|reflexivity].
  cbn [logging.sink]. rewrite filter_app, emit_other_level by exact Hne.
  apply app_nil_r.
Qed.

Lemma listen_reports_on_stdout dev mdl s e :
  fst (listen_body dev mdl s) = Raise e ->
  stdout (snd (snd (WhisperRecognizer_listen dev mdl s))) =
    (stdout (snd (snd (listen_body dev mdl s)))
       ++ [("Error during speech recognition: " ++ exn_msg e)%string])%list.
Proof.
  intros H. rewrite listen_run.
  destruct (listen_body dev mdl s) as [[text|e'] s1]; [discriminate|].
  cbn in H. injection H as ->. reflexivity.
Qed.

(** C3, as the code has it.  When every read of the device raises, a call of
    [SpeechHandler.listen()] on a handler that wraps a [WhisperRecognizer]
    returns the empty string and records no error-level line: the error-level
    lines of the sink are those that were there before the call.  The
    recognizer reports the failure on standard output instead. *)
Theorem all_reads_fail_records_no_error_line :
  forall (dev : Device) (mdl : Model) (handler : SpeechHandler)
         (self : WhisperRecognizer) (w : World),
    (forall t h n b, exists e, stream_read dev t h n b = Raise e) ->
    let after := handler_listen dev mdl handler (self, w) in
    fst after = Ok "" /\
    lines_at logging.ERROR (log_state (snd (snd after))) = lines_at logging.ERROR (log_state w) /\
    exists out e,
      stdout (snd (snd after)) =
        (out ++ [("Error during speech recognition: " ++ exn_msg e)%string])%list.
Proof.
  intros dev mdl handler self w Hfail after. subst after.
  unfold handler_listen. rewrite handler_listen_run.
  cbn [listen WhisperRecognizer_SpeechRecognizer].
  set (w0 := logged (logging.info (logger handler) "Starting to listen...") w).
  destruct (record_audio_all_fail dev self w0 Hfail) as (e & He & _).
  pose proof (record_raises_body_raises dev mdl _ e He) as Hbody.
  pose proof (listen_body_raises dev mdl _ e Hbody) as Hret.
  pose proof (listen_log dev mdl (self, w0)) as Hlog.
  pose proof (listen_reports_on_stdout dev mdl _ e Hbody) as Hout.
  destruct (WhisperRecognizer_listen dev mdl (self, w0)) as [[text|e'] [r1 w1]];
    cbn [fst snd] in *; [|discriminate].
  injection Hret as ->. repeat split.
  - cbn [logged log_state]. rewrite Hlog. unfold w0. cbn [logged log_state].
    unfold logging.info. now rewrite !log_other_level.
  - cbn [logged stdout]. rewrite Hout. eauto.
Qed.

Lemma all_reads_fail_records_no_error_line_witness :
  fst (handler_listen failing_device hello_model the_handler
         (recognizer_with seconds_0_1, snd (SpeechHandler_init initial_world))) = Ok "".
Proof.
  apply (all_reads_fail_records_no_error_line failing_device hello_model the_handler
           (recognizer_with seconds_0_1) (snd (SpeechHandler_init initial_world))).
  intros t h n b. eexists. reflexivity.
Defined.

(** C3, as stated, fails: with a device that raises on every read, the call
    returns the empty string and the sink holds no error-level line, where
    one such line is expected; the three lines it holds are informational. *)
Lemma one_error_line_refuted :
  let after := handler_listen failing_device hello_model the_handler
                 (recognizer_with seconds_0_1, snd (SpeechHandler_init initial_world)) in
  fst (SpeechHandler_init initial_world) = Ok the_handler /\
  fst after = Ok "" /\
  List.length (lines_at logging.ERROR (log_state (snd (snd after)))) = 0%nat /\
  map logging.line_message (logging.sink (log_state (snd (snd after)))) =
    ["Speech Handler initialized"; "Starting to listen..."; "Heard: "].
Proof. vm_compute. repeat split. Qed.

(** ** Normalization *)

Lemma all_from_sound p n :
  forall lo x, all_from p lo n = true -> lo <= x < lo + Z.of_nat n -> p x = true.
Proof.
  induction n as [|n IH]; intros lo x H Hx; [lia|].
  cbn [all_from] in H. apply andb_prop in H. destruct H as [H0 H1].
  destruct (Z.eq_dec x lo) as [->|Hne]; [exact H0|].
  apply (IH (lo + 1)); [exact H1|lia].
Qed.

(** Every one of the 65536 raw values is checked by evaluation. *)
Lemma int16_samples_ok : all_from sample_ok (-32768) (Z.to_nat 65536) = true.
Proof. vm_compute. reflexivity. Qed.

Lemma sample_ok_int16 x : is_int16 x -> sample_ok x = true.
Proof.
  intros Hx. apply (all_from_sound _ _ _ _ int16_samples_ok).
  unfold is_int16 in Hx. rewrite Z2Nat.id; lia.
Qed.

Lemma int16_of_bytes_range lo hi : is_int16 (int16_of_bytes lo hi).
Proof.
  unfold is_int16, int16_of_bytes.
  pose proof (Byte.to_N_bounded lo) as Hlo. pose proof (Byte.to_N_bounded hi) as Hhi.
  destruct (_ <? 32768) eqn:Hlt; [apply Z.ltb_lt in Hlt|apply Z.ltb_ge in Hlt]; lia.
Qed.

(** Every decoded element comes from two bytes of the buffer. *)
Lemma frombuffer_elements (P : byte -> Prop) :
  forall n data arr,
    (List.length data <= n)%nat ->
    Forall P data ->
    frombuffer_int16 data = Ok arr ->
    Forall (fun x => exists lo hi, P lo /\ P hi /\ x = int16_of_bytes lo hi) arr.
Proof.
  induction n as [|n IH]; intros data arr Hlen HP Hd.
  - destruct data; [|cbn in Hlen; lia]. injection Hd as <-. constructor.
  - destruct data as [|lo [|hi rest]].
    + injection Hd as <-. constructor.
    + discriminate.
    + cbn [frombuffer_int16] in Hd.
      destruct (frombuffer_int16 rest) as [xs|e] eqn:Hrest; [|discriminate].
      injection Hd as <-.
      inversion HP as [|? ? Plo HP']; subst. inversion HP' as [|? ? Phi HP'']; subst.
      constructor; [now exists lo, hi|].
      apply (IH rest); [cbn in Hlen; lia|assumption|exact Hrest].
Qed.

Lemma frame_of_elements (P : byte -> Prop) r :
  (forall data, r = Ok data -> Forall P data) ->
  Forall (Forall (fun x => exists lo hi, P lo /\ P hi /\ x = int16_of_bytes lo hi)) (frame_of r).
Proof.
  intros HP. unfold frame_of. destruct r as [data|e]; [|constructor].
  destruct (frombuffer_int16 data) as [arr|e] eqn:Hd; [|constructor].
  constructor; [|constructor].
  apply (frombuffer_elements P (List.length data) data); auto.
Qed.

Lemma reads_elements (P : byte -> Prop) rs :
  (forall data, In (Ok data) rs -> Forall P data) ->
  Forall (Forall (fun x => exists lo hi, P lo /\ P hi /\ x = int16_of_bytes lo hi))
    (flat_map frame_of rs).
Proof.
  induction rs as [|r rs IH]; intros HP; [constructor|].
  cbn [flat_map]. apply Forall_app. split.
  - apply frame_of_elements. intros data ->. apply HP. now left.
  - apply IH. intros data Hin. apply HP. now right.
Qed.

Lemma concat_Forall {A} (Q : A -> Prop) (ls : list (list A)) :
  Forall (Forall Q) ls -> Forall Q (List.concat ls).
Proof.
  induction 1 as [|l ls Hl _ IH]; [constructor|].
  cbn. apply Forall_app. now split.
Qed.

Lemma new_events_app w (s1 : WhisperRecognizer * World) evs :
  trace (snd s1) = (trace w ++ evs)%list -> new_events w s1 = evs.
Proof.
  intros H. unfold new_events. rewrite H, skipn_app, skipn_all, Nat.sub_diag.
  reflexivity.
Qed.

(** A returned buffer is the scaling of what the reads of this call
    delivered. *)
Lemma record_outcome_samples dev h self w audio s1 :
  record_outcome dev h self w = (Ok audio, s1) ->
  exists rs,
    audio = map normalize_sample (List.concat (flat_map frame_of rs)) /\
    trace (snd s1) = (trace w ++ map (EvRead h (CHUNK self) false) rs)%list.
Proof.
  unfold record_outcome. destruct (n_chunks self) as [n|e]; [|discriminate].
  set (rs := reads dev h (CHUNK self) (Z.to_nat n) (trace w)).
  destruct (flat_map frame_of rs) as [|f fs] eqn:Hfr; [discriminate|].
  cbn [np_concatenate]. intros Heq. injection Heq as <- <-.
  exists rs. rewrite Hfr. split; reflexivity.
Qed.

Lemma record_audio_samples (P : byte -> Prop) dev self w audio s1 :
  _record_audio dev (self, w) = (Ok audio, s1) ->
  (forall h c b data, In (EvRead h c b (Ok data)) (new_events w s1) -> Forall P data) ->
  exists raw,
    audio = map normalize_sample raw /\
    Forall (fun x => exists lo hi, P lo /\ P hi /\ x = int16_of_bytes lo hi) raw.
Proof.
  intros Hrec HP.
  assert (Hrs : exists h rs evs,
             audio = map normalize_sample (List.concat (flat_map frame_of rs)) /\
             new_events w s1 = (evs ++ map (EvRead h (CHUNK self) false) rs)%list).
  { destruct (stream self) as [h|] eqn:Hs.
    - rewrite (record_audio_open dev self w h Hs) in Hrec.
      destruct (record_outcome_samples dev h self w audio s1 Hrec) as (rs & Ha & Htr).
      exists h, rs, []. split; [exact Ha|]. now apply new_events_app.
    - rewrite (record_audio_closed dev self w Hs) in Hrec.
      destruct (audio_open dev (trace w) (stream_args self)) as [h|e]; [|discriminate].
      destruct (record_outcome_samples dev h _ _ audio s1 Hrec) as (rs & Ha & Htr).
      exists h, rs, [EvOpen (stream_args self) (Ok h)]. split; [exact Ha|].
      apply new_events_app. rewrite Htr. cbn [log_event trace set_stream CHUNK].
      now rewrite <- app_assoc. }
  destruct Hrs as (h & rs & evs & -> & Hnew).
  eexists. split; [reflexivity|].
  apply concat_Forall, reads_elements. intros data Hin.
  apply (HP h (CHUNK self) false). rewrite Hnew. apply in_or_app. right.
  now apply (in_map (EvRead h (CHUNK self) false)).
Qed.

Lemma sample_ok_spec x :
  sample_ok x = true ->
  f32_between f32_minus_one f32_one (normalize_sample x) = true /\
  exists q, SF2Q (normalize_sample x) = Some q /\ (q == x # 32768)%Q.
Proof.
  unfold sample_ok. intros H. apply andb_prop in H. destruct H as [Hb Hq].
  split; [exact Hb|].
  destruct (SF2Q (normalize_sample x)) as [q|]; [|discriminate].
  exists q. split; [reflexivity|]. now apply Qeq_bool_iff.
Qed.

(** C4.  Whatever chunks the device delivers, every sample of a buffer that
    [_record_audio] returns is a raw [int16] value divided by 32768, exactly,
    and lies in [[-1.0, 1.0]]; when every byte read during the call is zero,
    every sample of the buffer is [0.0]. *)
Theorem normalized_samples_in_unit_interval :
  forall (dev : Device) (self : WhisperRecognizer) (w : World) audio s1,
    _record_audio dev (self, w) = (Ok audio, s1) ->
    (exists raw,
        audio = map normalize_sample raw /\
        Forall (fun x => is_int16 x /\
                         exists q, SF2Q (normalize_sample x) = Some q /\
                                   (q == x # 32768)%Q) raw) /\
    Forall (fun y => f32_between f32_minus_one f32_one y = true) audio /\
    ((forall h c b data,
         In (EvRead h c b (Ok data)) (new_events w s1) -> Forall (eq x00) data) ->
     Forall (fun y => y = S754_zero false) audio).
Proof.
  intros dev self w audio s1 Hrec.
  destruct (record_audio_samples (fun _ => True) dev self w audio s1 Hrec)
    as (raw & -> & Hraw); [intros; now apply Forall_forall|].
  assert (Hok : Forall (fun x => sample_ok x = true) raw).
  { eapply Forall_impl; [|exact Hraw]. cbn. intros x (lo & hi & _ & _ & ->).
    apply sample_ok_int16, int16_of_bytes_range. }
  repeat split.
  - exists raw. split; [reflexivity|].
    eapply Forall_impl; [|exact Hraw]. cbn. intros x (lo & hi & _ & _ & ->).
    split; [apply int16_of_bytes_range|].
    apply sample_ok_spec, sample_ok_int16, int16_of_bytes_range.
  - apply Forall_map. eapply Forall_impl; [|exact Hok].
    intros x Hx. now apply sample_ok_spec.
  - intros Hzero.
    destruct (record_audio_samples (eq x00) dev self w _ s1 Hrec Hzero) as (raw' & Heq & Hz).
    rewrite Heq. apply Forall_map. eapply Forall_impl; [|exact Hz].
    cbn. intros x (lo & hi & <- & <- & ->). reflexivity.
Qed.

Lemma normalized_samples_in_unit_interval_witness :
  Forall (fun y => f32_between f32_minus_one f32_one y = true)
         (repeat (S754_zero false) 1024) /\
  Forall (fun y => y = S754_zero false) (repeat (S754_zero false) 1024).
Proof.
  destruct (normalized_samples_in_unit_interval silent_device
              (recognizer_with seconds_0_1) initial_world
              (repeat (S754_zero false) 1024)
              (snd (_record_audio silent_device (recognizer_with seconds_0_1, initial_world))))
    as (_ & Hrange & Hzero).
  - vm_compute. reflexivity.
  - split; [exact Hrange|]. apply Hzero.
    replace (new_events initial_world
               (snd (_record_audio silent_device
                       (recognizer_with seconds_0_1, initial_world))))
      with [EvOpen (stream_args (recognizer_with seconds_0_1)) (Ok 0%nat);
            EvRead 0%nat 1024 false (Ok (repeat x00 2048))]
      by (vm_compute; reflexivity).
    intros h c b data [Hev|[Hev|[]]]; [discriminate|].
    assert (Hdata : data = repeat x00 2048) by congruence.
    rewrite Hdata. apply Forall_forall. intros x Hx. symmetry.
    exact (repeat_spec _ _ _ Hx).
Defined.

(** ** One stream per recognizer *)

Section OneStream.

Context (dev : Device) (mdl : Model).

(** After recording, [listen] leaves the object alone and calls only the
    model. *)
Lemma listen_after_record (f : event -> bool) s :
  (forall a o r, f (EvTranscribe a o r) = false) ->
  fst (snd (WhisperRecognizer_listen dev mdl s)) = fst (snd (_record_audio dev s)) /\
  filter f (trace (snd (snd (WhisperRecognizer_listen dev mdl s)))) =
    filter f (trace (snd (snd (_record_audio dev s)))).
Proof.
  intros Hf. rewrite listen_run. unfold listen_body, bind.
  destruct (_record_audio dev s) as [[audio|e] [self1 w1]]; [|split; reflexivity].
  unfold transcribe_audio. run_py.
  destruct (transcribe mdl (trace w1) audio whisper_opts) as [res|e];
    [destruct (py_getitem res "text") as [item|e];
     [destruct (py_strip item) as [text|e]|]|];
    cbn [fst snd trace report_failure]; (split; [reflexivity|]);
    rewrite filter_app; cbn [filter]; rewrite Hf; apply app_nil_r.
Qed.

Lemma record_outcome_object h self w :
  fst (snd (record_outcome dev h self w)) = self.
Proof. unfold record_outcome. destruct (n_chunks self); reflexivity. Qed.

(** A recognizer that holds a stream keeps it and calls [open] no more. *)
Lemma listen_keeps_stream self w h :
  stream self = Some h ->
  let s' := snd (WhisperRecognizer_listen dev mdl (self, w)) in
  stream (fst s') = Some h /\
  filter is_open (trace (snd s')) = filter is_open (trace w).
Proof.
  intros Hs s'. subst s'.
  destruct (listen_after_record is_open (self, w)) as [Hobj Htr]; [reflexivity|].
  rewrite Hobj, Htr, (record_audio_open dev self w h Hs).
  rewrite record_outcome_object, record_outcome_filter by reflexivity. now split.
Qed.

(** A recognizer without a stream asks for one: it holds the stream the
    device returns, or none if the call raises. *)
Lemma listen_opens_stream self w :
  stream self = None ->
  let s' := snd (WhisperRecognizer_listen dev mdl (self, w)) in
  match audio_open dev (trace w) (stream_args self) with
  | Ok h =>
      stream (fst s') = Some h /\
      streams_opened (trace (snd s')) = S (streams_opened (trace w))
  | Raise _ =>
      stream (fst s') = None /\
      streams_opened (trace (snd s')) = streams_opened (trace w)
  end.
Proof.
  intros Hs s'. subst s'. unfold streams_opened.
  destruct (listen_after_record is_opened (self, w)) as [Hobj Htr]; [reflexivity|].
  rewrite Hobj, Htr, (record_audio_closed dev self w Hs).
  destruct (audio_open dev (trace w) (stream_args self)) as [h|e].
  - rewrite record_outcome_object, record_outcome_filter by reflexivity.
    cbn [log_event trace set_stream stream]. rewrite filter_app, length_app.
    cbn. split; [reflexivity|lia].
  - cbn [fst snd log_event trace]. rewrite filter_app, length_app. cbn.
    split; [assumption|lia].
Qed.

Lemma opened_le_open_filter (t t' : list event) :
  filter is_open t' = filter is_open t -> streams_opened t' = streams_opened t.
Proof.
  intros H. unfold streams_opened.
  assert (Hf : forall l, filter is_opened l = filter is_opened (filter is_open l)).
  { induction l as [|ev l IH]; [reflexivity|].
    destruct ev as [a [h|e]| | | | |]; cbn; rewrite <- ?IH; reflexivity. }
  now rewrite (Hf t'), (Hf t), H.
Qed.

Lemma listen_stream_counted s :
  stream_counted s -> stream_counted (snd (WhisperRecognizer_listen dev mdl s)).
Proof.
  destruct s as [self w]. unfold stream_counted. cbn [fst snd].
  destruct (stream self) as [h|] eqn:Hs; intros Hc.
  - destruct (listen_keeps_stream self w h Hs) as [Hst Htr].
    rewrite Hst, (opened_le_open_filter _ _ Htr). exact Hc.
  - pose proof (listen_opens_stream self w Hs) as H.
    destruct (audio_open dev (trace w) (stream_args self)); destruct H as [-> ->]; lia.
Qed.

Lemma after_listens_stream_counted n :
  forall s, stream_counted s -> stream_counted (after_listens dev mdl n s).
Proof.
  induction n as [|n IH]; intros s Hc; [exact Hc|].
  cbn [after_listens]. apply IH, listen_stream_counted, Hc.
Qed.

Lemma after_listens_keeps_stream n :
  forall self w h,
    stream self = Some h ->
    stream (fst (after_listens dev mdl n (self, w))) = Some h /\
    filter is_open (trace (snd (after_listens dev mdl n (self, w)))) = filter is_open (trace w).
Proof.
  induction n as [|n IH]; intros self w h Hs; [now split|].
  cbn [after_listens].
  destruct (listen_keeps_stream self w h Hs) as [Hst Htr].
  destruct (snd (WhisperRecognizer_listen dev mdl (self, w))) as [self1 w1].
  cbn [fst snd] in *. destruct (IH self1 w1 h Hst) as [H1 H2].
  split; [exact H1|congruence].
Qed.

End OneStream.

(** C6.  A recognizer that starts without a stream opens at most one over
    any number of calls of [listen()]: the count of streams the device has
    handed out never exceeds one, and once the recognizer holds a stream,
    every later call keeps the same handle and makes no further call of
    [open].  When the first request for a stream succeeds, that stream is
    the one held ever after. *)
Theorem at_most_one_stream_opened :
  forall (dev : Device) (mdl : Model) (self : WhisperRecognizer) (w : World),
    stream self = None ->
    streams_opened (trace w) = 0%nat ->
    forall n,
      let s := after_listens dev mdl n (self, w) in
      (streams_opened (trace (snd s)) <= 1)%nat /\
      (forall h, stream (fst s) = Some h ->
         forall m,
           let s' := after_listens dev mdl m s in
           stream (fst s') = Some h /\
           open_calls (trace (snd s')) = open_calls (trace (snd s)) /\
           streams_opened (trace (snd s')) = 1%nat) /\
      (forall h, audio_open dev (trace w) (stream_args self) = Ok h ->
         (0 < n)%nat -> stream (fst s) = Some h).
Proof.
  intros dev mdl self w Hs H0 n s.
  assert (Hc : stream_counted s).
  { apply after_listens_stream_counted. unfold stream_counted. cbn. now rewrite Hs. }
  repeat split.
  - unfold stream_counted in Hc. destruct (stream (fst s)); lia.
  - destruct s as [self1 w1]. cbn [fst] in H.
    apply (after_listens_keeps_stream dev mdl m self1 w1 h H).
  - destruct s as [self1 w1]. cbn [fst snd] in *.
    destruct (after_listens_keeps_stream dev mdl m self1 w1 h H) as [_ Htr].
    unfold open_calls. now rewrite Htr.
  - destruct s as [self1 w1]. cbn [fst snd] in *.
    destruct (after_listens_keeps_stream dev mdl m self1 w1 h H) as [Hst Htr].
    rewrite (opened_le_open_filter _ _ Htr).
    unfold stream_counted in Hc. cbn [fst snd] in Hc. now rewrite H in Hc.
  - intros h Ho Hn. subst s. destruct n as [|n]; [lia|].
    cbn [after_listens].
    pose proof (listen_opens_stream dev mdl self w Hs) as H. rewrite Ho in H.
    destruct H as [Hst _].
    destruct (snd (WhisperRecognizer_listen dev mdl (self, w))) as [self1 w1].
    apply (after_listens_keeps_stream dev mdl n self1 w1 h Hst).
Qed.

Lemma at_most_one_stream_opened_witness :
  let s := after_listens silent_device hello_model 2
             (recognizer_with seconds_0_1, initial_world) in
  (streams_opened (trace (snd s)) <= 1)%nat /\ stream (fst s) = Some 0%nat.
Proof.
  destruct (at_most_one_stream_opened silent_device hello_model
              (recognizer_with seconds_0_1) initial_world eq_refl eq_refl 2)
    as (Hle & _ & Hfirst).
  split; [exact Hle|]. apply Hfirst; [reflexivity|lia].
Defined.

(** ** Teardown *)

(** C8, as the code has it.  When stopping and closing a stream do not
    raise, [__del__] on a recognizer in any state, reached through any
    history of successful or failed calls, stops and closes the stream it
    holds, if any, and then calls [terminate] on the device: these are its
    only calls, in this order. *)
Theorem del_releases_device :
  forall (dev : Device) (self : WhisperRecognizer) (w : World),
    (forall t h, stream_stop_stream dev t h = Ok tt /\ stream_close dev t h = Ok tt) ->
    trace (snd (snd (WhisperRecognizer_del dev (self, w)))) =
      (trace w ++ teardown_calls dev self (trace w))%list /\
    fst (WhisperRecognizer_del dev (self, w)) =
      audio_terminate dev
        (trace w ++ removelast (teardown_calls dev self (trace w)))%list.
Proof.
  intros dev self w Hok. unfold WhisperRecognizer_del, teardown_calls. run_py.
  destruct (stream self) as [h|]; cbn [fst snd trace].
  - destruct (Hok (trace w) h) as [-> _]. cbn [fst snd trace].
    destruct (Hok (trace w ++ [EvStopStream h (Ok tt)])%list h) as [_ ->].
    cbn [fst snd trace removelast]. rewrite <- !app_assoc. cbn [app]. now split.
  - cbn [removelast]. rewrite app_nil_r. now split.
Qed.

Lemma del_releases_device_witness :
  let s := after_listens silent_device hello_model 1
             (recognizer_with seconds_0_1, initial_world) in
  stream (fst s) = Some 0%nat /\
  filter is_terminate (trace (snd (snd (WhisperRecognizer_del silent_device s)))) =
    [EvTerminate (Ok tt)].
Proof.
  cbv zeta. split; [reflexivity|].
  destruct (del_releases_device silent_device
              (fst (after_listens silent_device hello_model 1
                      (recognizer_with seconds_0_1, initial_world)))
              (snd (after_listens silent_device hello_model 1
                      (recognizer_with seconds_0_1, initial_world)))) as [Htr _].
  - intros t h. split; reflexivity.
  - rewrite <- surjective_pairing in Htr. rewrite Htr. vm_compute. reflexivity.
Defined.

(** C8, as stated, fails: when [stop_stream] raises, [__del__] is left at
    once; the stream is not closed and [terminate] is never called. *)
Lemma del_skips_terminate_when_stop_raises :
  let s := after_listens stuck_device hello_model 1
             (recognizer_with seconds_0_1, initial_world) in
  let after := WhisperRecognizer_del stuck_device s in
  stream (fst s) = Some 0%nat /\
  fst after = Raise (OSError "[Errno -9988] Stream closed") /\
  filter is_terminate (trace (snd (snd after))) = [] /\
  last (trace (snd (snd after))) (EvTerminate (Ok tt)) =
    EvStopStream 0%nat (Raise (OSError "[Errno -9988] Stream closed")).
Proof. vm_compute. repeat split. Qed.

(** ** One more file handler per construction *)

Lemma find_update_same d name l :
  logging.find_logger (logging.update_logger d name l) name = Some l.
Proof.
  induction d as [|[n l0] d IH]; cbn.
  - now rewrite String.eqb_refl.
  - destruct (String.eqb n name) eqn:Hn; cbn; rewrite Hn; [reflexivity|exact IH].
Qed.

Lemma getLogger_put st name l :
  logging.getLogger (logging.put_logger st name l) name = l.
Proof.
  unfold logging.getLogger, logging.put_logger. cbn [logging.loggerDict].
  now rewrite find_update_same.
Qed.

Lemma getLogger_log st name lv msg name' :
  logging.getLogger (logging.log name lv msg st) name' = logging.getLogger st name'.
Proof.
  unfold logging.log. destruct (_ <=? lv); reflexivity.
Qed.

(** One construction: the level is set and one handler is appended. *)
Lemma init_logger w :
  fst (SpeechHandler_init w) = Ok the_handler /\
  logging.getLogger (log_state (snd (SpeechHandler_init w))) "SpeechHandler" =
    {| logging.level := logging.INFO;
       logging.handlers :=
         (logging.handlers (logging.getLogger (log_state w) "SpeechHandler")
            ++ [speech_file_handler])%list |}.
Proof.
  unfold SpeechHandler_init, _setup_logging. run_py. split; [reflexivity|].
  unfold logging.info. rewrite getLogger_log.
  unfold logging.addHandler. rewrite getLogger_put.
  unfold logging.setLevel. rewrite getLogger_put. reflexivity.
Qed.

Lemma after_inits_logger k :
  forall w,
    (0 < k)%nat ->
    logging.getLogger (log_state (after_inits k w)) "SpeechHandler" =
      {| logging.level := logging.INFO;
         logging.handlers :=
           (logging.handlers (logging.getLogger (log_state w) "SpeechHandler")
              ++ repeat speech_file_handler k)%list |}.
Proof.
  induction k as [|k IH]; intros w Hk; [lia|].
  cbn [after_inits]. destruct (init_logger w) as [_ Hl].
  destruct k as [|k].
  - cbn [after_inits repeat]. exact Hl.
  - rewrite IH by lia. rewrite Hl. cbn [logging.handlers].
    rewrite <- app_assoc. reflexivity.
Qed.

Lemma emit_repeat lv msg k :
  0 <= lv ->
  flat_map (logging.emit lv msg) (repeat speech_file_handler k) =
    repeat (speech_log_line lv msg) k.
Proof.
  intros Hlv. induction k as [|k IH]; [reflexivity|].
  cbn [repeat flat_map]. rewrite IH. unfold logging.emit at 1.
  cbn [logging.handler_level speech_file_handler].
  unfold logging.NOTSET. destruct (0 <=? lv) eqn:H; [reflexivity|].
  apply Z.leb_gt in H. lia.
Qed.

(** A logging call at level [lv] with [k] handlers on a logger set to
    [INFO]. *)
Lemma log_with_handlers st lv msg k :
  logging.getLogger st "SpeechHandler" =
    {| logging.level := logging.INFO; logging.handlers := repeat speech_file_handler k |} ->
  logging.INFO <= lv ->
  logging.sink (logging.log "SpeechHandler" lv msg st) =
    (logging.sink st ++ repeat (speech_log_line lv msg) k)%list /\
  logging.loggerDict (logging.log "SpeechHandler" lv msg st) = logging.loggerDict st.
Proof.
  intros Hl Hlv. unfold logging.log. rewrite Hl.
  unfold logging.getEffectiveLevel. cbn [logging.level logging.handlers].
  change (logging.INFO =? logging.NOTSET) with false. cbv iota.
  destruct (logging.INFO <=? lv) eqn:H; [|apply Z.leb_gt in H; lia].
  cbn [logging.sink logging.loggerDict]. split; [|reflexivity].
  rewrite emit_repeat; [reflexivity|]. unfold logging.INFO in Hlv. lia.
Qed.

Lemma getLogger_by_dict st st' name :
  logging.loggerDict st' = logging.loggerDict st ->
  logging.getLogger st' name = logging.getLogger st name.
Proof. intros H. unfold logging.getLogger. now rewrite H. Qed.

(** C10.  In a process whose logging state is fresh, [k] constructions of a
    [SpeechHandler] leave [k] file handlers on the logger named
    ["SpeechHandler"], each construction returning a handler on that same
    logger.  From then on, as long as the registry is as the constructions
    left it, a call of [listen()] on a handler that wraps a recognizer which
    does not itself log appends each of its two messages [k] times to the
    sink: the opening line, then the closing line, which reports the text
    heard or the exception of the recognizer. *)
Theorem every_handler_adds_a_file_handler :
  forall (k : nat) (w0 : World),
    log_state w0 = logging.initial ->
    let w := after_inits k w0 in
    (forall w1, fst (SpeechHandler_init w1) = Ok the_handler) /\
    ((0 < k)%nat ->
     logging.handlers (logging.getLogger (log_state w) "SpeechHandler") =
       repeat speech_file_handler k) /\
    ((0 < k)%nat ->
     forall (R : Type) (SR : SpeechRecognizer R) (r : R) (w' : World),
       (forall s, log_state (snd (snd (listen s))) = log_state (snd s)) ->
       logging.loggerDict (log_state w') = logging.loggerDict (log_state w) ->
       let before := logged (logging.info "SpeechHandler" "Starting to listen...") w' in
       let after := SpeechHandler_listen the_handler (r, w') in
       logging.sink (log_state (snd (snd after))) =
         (logging.sink (log_state w')
            ++ repeat (speech_log_line logging.INFO "Starting to listen...") k
            ++ repeat (closing_line (fst (listen (r, before)))) k)%list).
Proof.
  intros k w0 H0 w. subst w.
  assert (Hl : (0 < k)%nat ->
               logging.getLogger (log_state (after_inits k w0)) "SpeechHandler" =
                 {| logging.level := logging.INFO;
                    logging.handlers := repeat speech_file_handler k |}).
  { intros Hk. rewrite after_inits_logger by exact Hk. rewrite H0. reflexivity. }
  split; [intros w1; apply init_logger|]. split.
  - intros Hk. now rewrite Hl.
  - intros Hk R SR r w' Hpres Hdict before after. subst before after.
    rewrite handler_listen_run. cbn [logger the_handler].
    set (before := logged (logging.info "SpeechHandler" "Starting to listen...") w').
    assert (Hl' : logging.getLogger (log_state w') "SpeechHandler" =
                  {| logging.level := logging.INFO;
                     logging.handlers := repeat speech_file_handler k |}).
    { rewrite (getLogger_by_dict _ _ _ Hdict). exact (Hl Hk). }
    destruct (log_with_handlers (log_state w') logging.INFO "Starting to listen..." k Hl')
      as [Hsink Hd]; [lia|].
    assert (Hlb : logging.getLogger (log_state before) "SpeechHandler" =
                  {| logging.level := logging.INFO;
                     logging.handlers := repeat speech_file_handler k |}).
    { unfold before. cbn [logged log_state]. unfold logging.info.
      rewrite getLogger_log. exact Hl'. }
    pose proof (Hpres (r, before)) as Hp. cbn [snd] in Hp.
    destruct (listen (r, before)) as [[text|e] [r1 w1]]; cbn [fst snd] in *;
      cbn [logged log_state closing_line]; rewrite <- Hp in Hlb.
    + unfold logging.info at 1.
      destruct (log_with_handlers (log_state w1) logging.INFO ("Heard: " ++ text) k Hlb)
        as [-> _]; [lia|].
      rewrite Hp. unfold before. cbn [logged log_state]. unfold logging.info at 1.
      rewrite Hsink, <- app_assoc. reflexivity.
    + unfold logging.error.
      destruct (log_with_handlers (log_state w1) logging.ERROR
                  ("Error while listening: " ++ exn_msg e) k Hlb) as [-> _];
        [unfold logging.INFO, logging.ERROR; lia|].
      rewrite Hp. unfold before. cbn [logged log_state]. unfold logging.info at 1.
      rewrite Hsink, <- app_assoc. reflexivity.
Qed.

Lemma every_handler_adds_a_file_handler_witness :
  map logging.line_message
    (logging.sink
       (log_state
          (snd (snd (handler_listen silent_device hello_model the_handler
                       (recognizer_with seconds_0_1, after_inits 2 initial_world)))))) =
    ["Speech Handler initialized";
     "Speech Handler initialized"; "Speech Handler initialized";
     "Starting to listen..."; "Starting to listen...";
     "Heard: hello"; "Heard: hello"].
Proof.
  destruct (every_handler_adds_a_file_handler 2 initial_world eq_refl) as (_ & _ & H).
  unfold handler_listen.
  rewrite (H ltac:(lia) WhisperRecognizer
             (WhisperRecognizer_SpeechRecognizer silent_device hello_model)
             (recognizer_with seconds_0_1) (after_inits 2 initial_world)
             (listen_log silent_device hello_model) eq_refl).
  vm_compute. reflexivity.
Defined.

(** ** The end-to-end scenario *)

(** C7.  A recognizer built with [record_seconds=0.1] reads one chunk, since
    [int(16000 / 1024 * 0.1)] is 1.  With a device that opens and delivers
    1024 zero samples per read, and a model that answers
    [{"text": " hello "}], [listen()] returns ["hello"]: it has opened the
    stream, read once, and called the model once, on 1024 samples [0.0],
    with [fp16=False], [language="en"] and
    [initial_prompt="stop listening"]. *)
Theorem hello_scenario :
  forall (dev : Device) (mdl : Model) (w : World),
    (forall t a, exists h, audio_open dev t a = Ok h) ->
    (forall t h, stream_read dev t h 1024 false = Ok (repeat x00 2048)) ->
    (forall t a o, transcribe mdl t a o = Ok (PyDict [("text", PyStr " hello ")])) ->
    let after := WhisperRecognizer_listen dev mdl (recognizer_with seconds_0_1, w) in
    py_truediv 1 10 = Ok seconds_0_1 /\
    n_chunks (recognizer_with seconds_0_1) = Ok 1 /\
    fst after = Ok "hello" /\
    exists h,
      trace (snd (snd after)) =
        (trace w ++
         [EvOpen {| oa_format := paInt16; oa_channels := 1; oa_rate := 16000;
                    oa_input := true; oa_frames_per_buffer := 1024 |} (Ok h);
          EvRead h 1024 false (Ok (repeat x00 2048));
          EvTranscribe (repeat (S754_zero false) 1024)
            {| fp16 := false; language := "en"; initial_prompt := "stop listening" |}
            (Ok (PyDict [("text", PyStr " hello ")]))])%list.
Proof.
  intros dev mdl w Hopen Hread Hmodel after. subst after.
  split; [vm_compute; reflexivity|]. split; [vm_compute; reflexivity|].
  destruct (Hopen (trace w) (stream_args (recognizer_with seconds_0_1))) as [h Hh].
  assert (Hrec : _record_audio dev (recognizer_with seconds_0_1, w) =
                 (Ok (repeat (S754_zero false) 1024),
                  (set_stream (Some h) (recognizer_with seconds_0_1),
                   {| trace := (trace w ++
                                [EvOpen (stream_args (recognizer_with seconds_0_1)) (Ok h);
                                 EvRead h 1024 false (Ok (repeat x00 2048))])%list;
                      stdout := stdout w;
                      stderr := stderr w;
                      log_state := log_state w |}))).
  { rewrite record_audio_closed by reflexivity. rewrite Hh.
    unfold record_outcome.
    change (n_chunks (set_stream (Some h) (recognizer_with seconds_0_1))) with
      (n_chunks (recognizer_with seconds_0_1)).
    replace (n_chunks (recognizer_with seconds_0_1)) with (@Ok Z 1)
      by (vm_compute; reflexivity).
    change (Z.to_nat 1) with 1%nat.
    cbn [reads set_stream CHUNK recognizer_with].
    rewrite Hread.
    replace (flat_map frame_of [Ok (repeat x00 2048)]) with [repeat 0 1024]
      by (vm_compute; reflexivity).
    replace (np_concatenate [repeat 0 1024]) with (Ok (repeat 0 1024))
      by (vm_compute; reflexivity).
    replace (map normalize_sample (repeat 0 1024)) with (repeat (S754_zero false) 1024)
      by (vm_compute; reflexivity).
    unfold after_reads, log_event.
    cbn [trace stdout stderr log_state map flat_map complaint_of].
    replace (complaint_of (Ok (repeat x00 2048))) with (@nil string)
      by (vm_compute; reflexivity).
    rewrite <- !app_assoc, !app_nil_r. reflexivity. }
  rewrite listen_run. unfold listen_body, bind. rewrite Hrec.
  unfold transcribe_audio. run_py. rewrite Hmodel.
  cbn [py_getitem dict_get String.eqb Ascii.eqb Bool.eqb py_strip fst snd trace].
  split; [vm_compute; reflexivity|].
  exists h. rewrite <- !app_assoc. reflexivity.
Qed.

Lemma hello_scenario_witness :
  fst (WhisperRecognizer_init "base" seconds_0_1 initial_world) =
    Ok (recognizer_with seconds_0_1) /\
  fst (WhisperRecognizer_listen silent_device hello_model
         (recognizer_with seconds_0_1,
          snd (WhisperRecognizer_init "base" seconds_0_1 initial_world))) = Ok "hello".
Proof.
  split; [reflexivity|].
  apply (hello_scenario silent_device hello_model
           (snd (WhisperRecognizer_init "base" seconds_0_1 initial_world))).
  - intros t a. exists 0%nat. reflexivity.
  - intros t h. reflexivity.
  - intros t a o. reflexivity.
Defined.

(** ** Rounding to binary64 *)

Lemma iter_pos_nat {A} (f : A -> A) p :
  forall x, iter_pos f p x = Nat.iter (Pos.to_nat p) f x.
Proof.
  induction p as [p IH|p IH|]; intros x; cbn [iter_pos].
  - rewrite !IH. replace (Pos.to_nat p~1) with (Pos.to_nat p + (Pos.to_nat p + 1))%nat
      by (rewrite Pos2Nat.inj_xI; lia).
    rewrite !Nat.iter_add. reflexivity.
  - rewrite !IH. replace (Pos.to_nat p~0) with (Pos.to_nat p + Pos.to_nat p)%nat
      by (rewrite Pos2Nat.inj_xO; lia).
    rewrite Nat.iter_add. reflexivity.
  - reflexivity.
Qed.

(** One step of the right shift: the mantissa is halved, the bit that falls
    off becomes the round bit, and the old round bit joins the sticky bit. *)
Lemma shr_1_spec mrs :
  0 <= shr_m mrs ->
  shr_m mrs = 2 * shr_m (shr_1 mrs) + (if shr_r (shr_1 mrs) then 1 else 0) /\
  0 <= shr_m (shr_1 mrs) /\
  shr_s (shr_1 mrs) = shr_r mrs || shr_s mrs.
Proof.
  destruct mrs as [m r s]. cbn [shr_m shr_r shr_s]. intros Hm.
  destruct m as [|[p|p|]|p]; cbn; try lia; repeat split; lia.
Qed.

Lemma shr_iter_spec (i : nat) m :
  0 <= m ->
  let mrs := Nat.iter i shr_1 {| shr_m := m; shr_r := false; shr_s := false |} in
  0 <= shr_m mrs /\
  exists rem,
    m = shr_m mrs * 2 ^ Z.of_nat i + rem /\
    0 <= rem < 2 ^ Z.of_nat i /\
    (shr_r mrs || shr_s mrs = true -> 0 < rem).
Proof.
  intros Hm. induction i as [|i IH]; cbn zeta.
  - cbn. split; [exact Hm|]. exists 0. repeat split; try lia; try discriminate.
  - cbn zeta in IH.
    change (Nat.iter (S i) shr_1 {| shr_m := m; shr_r := false; shr_s := false |})
      with (shr_1 (Nat.iter i shr_1 {| shr_m := m; shr_r := false; shr_s := false |})).
    set (mrs := Nat.iter i shr_1 _) in *.
    destruct IH as (Hpos & rem & Heq & Hrem & Hflag).
    destruct (shr_1_spec mrs Hpos) as (Hhalf & Hpos' & Hs).
    split; [exact Hpos'|].
    rewrite Nat2Z.inj_succ, Z.pow_succ_r by lia.
    exists ((if shr_r (shr_1 mrs) then 1 else 0) * 2 ^ Z.of_nat i + rem).
    assert (H2 : 0 < 2 ^ Z.of_nat i) by (apply Z.pow_pos_nonneg; lia).
    repeat split.
    + rewrite Heq at 1. rewrite Hhalf at 1. ring.
    + destruct (shr_r (shr_1 mrs)); lia.
    + destruct (shr_r (shr_1 mrs)); lia.
    + rewrite Hs. intros Hf. destruct (shr_r (shr_1 mrs)); [lia|].
      cbn [orb] in Hf. specialize (Hflag Hf). lia.
Qed.

(** The right shift by [max 0 n] of an exact mantissa. *)
Lemma shr_exact_spec m e n mrs e' :
  0 <= m ->
  shr {| shr_m := m; shr_r := false; shr_s := false |} e n = (mrs, e') ->
  e' = e + Z.max 0 n /\
  0 <= shr_m mrs /\
  exists rem,
    m = shr_m mrs * 2 ^ Z.max 0 n + rem /\
    0 <= rem < 2 ^ Z.max 0 n /\
    (shr_r mrs || shr_s mrs = true -> 0 < rem).
Proof.
  intros Hm. unfold shr. destruct n as [|p|p]; intros H; injection H as <- <-.
  - cbn. repeat split; try lia. exists 0. repeat split; try lia; try discriminate.
  - rewrite iter_pos_nat. replace (Z.max 0 (Z.pos p)) with (Z.of_nat (Pos.to_nat p))
      by (rewrite positive_nat_Z; lia).
    destruct (shr_iter_spec (Pos.to_nat p) m Hm) as (Hpos & rem & H).
    split; [rewrite positive_nat_Z; reflexivity|]. split; [exact Hpos|].
    exists rem. exact H.
  - cbn. repeat split; try lia. exists 0. repeat split; try lia; try discriminate.
Qed.

Lemma round_nearest_even_spec mrs :
  let m1 := round_nearest_even (shr_m mrs) (loc_of_shr_record mrs) in
  m1 = shr_m mrs \/ (m1 = shr_m mrs + 1 /\ shr_r mrs || shr_s mrs = true).
Proof.
  destruct mrs as [m [|] [|]]; cbn; try destruct (Z.even m); auto.
Qed.

Lemma digits2_pos_size p : digits2_pos p = Pos.size p.
Proof. induction p as [p IH|p IH|]; cbn; now rewrite ?IH. Qed.

(** A positive number has at least the value its digit count implies. *)
Lemma Zdigits2_lower m :
  0 < m -> 2 ^ Zdigits2 m <= 2 * m.
Proof.
  destruct m as [|p|p]; try lia. intros _. cbn [Zdigits2].
  rewrite digits2_pos_size.
  pose proof (Pos.size_le p) as H.
  change (2 ^ Z.pos (Pos.size p)) with (Z.pos 2 ^ Z.pos (Pos.size p)).
  rewrite <- Pos2Z.inj_pow. lia.
Qed.

(** Rounding an exact positive mantissa [M] at exponent [E] to binary64.
    The result, when finite, is the mantissa [mf] at exponent [ef], reached
    by a shift of [k1] bits, a rounding to [m1] that is off by less than one
    unit, and a second shift of [k2] bits; a result with a positive exponent
    is at least [2 ^ 53] unless nothing was shifted. *)
Lemma round_exact_spec (sx : bool) (M : positive) (E : Z) :
  match binary_round_aux 53 1024 sx (Zpos M) E loc_Exact with
  | S754_zero s => s = sx
  | S754_infinity s => s = sx
  | S754_nan => False
  | S754_finite s mf ef =>
      s = sx /\
      exists k1 k2 m1 : Z,
        0 <= k1 /\ 0 <= k2 /\ ef = E + k1 + k2 /\
        (m1 - 1) * 2 ^ k1 < Zpos M < (m1 + 1) * 2 ^ k1 /\
        Zpos mf * 2 ^ k2 <= m1 < (Zpos mf + 1) * 2 ^ k2 /\
        (0 < ef -> 2 ^ 52 <= Zpos mf \/ mf = M)
  end.
Proof.
  unfold binary_round_aux, shr_fexp. cbn [shr_record_of_loc].
  set (dM := Zdigits2 (Z.pos M)).
  set (n1 := fexp 53 1024 (dM + E) - E).
  destruct (shr {| shr_m := Z.pos M; shr_r := false; shr_s := false |} E n1)
    as [mrs1 e1] eqn:H1.
  destruct (shr_exact_spec _ _ _ _ _ (Pos2Z.is_nonneg M) H1)
    as (He1 & Hpos1 & rem1 & Heq1 & Hrem1 & Hflag1).
  pose proof (round_nearest_even_spec mrs1) as Hr. cbn zeta in Hr.
  set (m1 := round_nearest_even (shr_m mrs1) (loc_of_shr_record mrs1)) in *.
  assert (Hm1 : 0 <= m1) by (destruct Hr as [-> | [-> _]]; lia).
  set (d1 := Zdigits2 m1).
  set (n2 := fexp 53 1024 (d1 + e1) - e1).
  destruct (shr {| shr_m := m1; shr_r := false; shr_s := false |} e1 n2)
    as [mrs2 e2] eqn:H2.
  destruct (shr_exact_spec _ _ _ _ _ Hm1 H2)
    as (He2 & Hpos2 & rem2 & Heq2 & Hrem2 & _).
  destruct (shr_m mrs2) as [|mf|mf] eqn:Hmf; [reflexivity| |lia].
  destruct (e2 <=? 1024 - 53); [|reflexivity].
  split; [reflexivity|].
  set (k1 := Z.max 0 n1) in *. set (k2 := Z.max 0 n2) in *.
  assert (Hk1 : 0 <= k1) by (unfold k1; lia).
  assert (Hk2 : 0 <= k2) by (unfold k2; lia).
  assert (HP1 : 0 < 2 ^ k1) by (apply Z.pow_pos_nonneg; lia).
  assert (HP2 : 0 < 2 ^ k2) by (apply Z.pow_pos_nonneg; lia).
  assert (Hround : (m1 - 1) * 2 ^ k1 < Z.pos M < (m1 + 1) * 2 ^ k1).
  { destruct Hr as [Hq|[Hq Hf]]; rewrite Hq.
    - nia.
    - specialize (Hflag1 Hf). nia. }
  assert (Hfloor : Z.pos mf * 2 ^ k2 <= m1 < (Z.pos mf + 1) * 2 ^ k2) by nia.
  exists k1, k2, m1. repeat split; try lia.
  intros Hef.
  assert (Hdm1 : 2 ^ d1 <= 2 * m1) by (apply Zdigits2_lower; nia).
  assert (HdM : 2 ^ dM <= 2 * Z.pos M) by (apply Zdigits2_lower; lia).
  unfold fexp, emin in n1, n2.
  destruct (Z_lt_le_dec 0 n2) as [Hn2|Hn2].
  - left. assert (Hd1 : d1 = k2 + 53) by (unfold k2, n2 in *; lia).
    rewrite Hd1, Z.pow_add_r in Hdm1 by lia.
    change (2 ^ 53) with (2 * 2 ^ 52) in Hdm1. nia.
  - assert (Hk20 : k2 = 0) by (unfold k2; lia).
    rewrite Hk20 in Hfloor. change (2 ^ 0) with 1 in Hfloor.
    assert (Hmf1 : m1 = Z.pos mf) by lia.
    destruct (Z_lt_le_dec 0 n1) as [Hn1|Hn1].
    + left. assert (HdMk : dM = k1 + 53) by (unfold k1, k2, n1, n2 in *; lia).
      rewrite HdMk, Z.pow_add_r in HdM by lia.
      change (2 ^ 53) with (2 * 2 ^ 52) in HdM. nia.
    + right. assert (Hk10 : k1 = 0) by (unfold k1; lia).
      rewrite Hk10 in Hround. change (2 ^ 0) with 1 in Hround.
      assert (Z.pos mf = Z.pos M) by lia. congruence.
Qed.

(** ** The chunk count *)

Lemma rate_per_chunk_value :
  py_truediv 16000 1024 = Ok rate_per_chunk /\
  exists q, SF2Q rate_per_chunk = Some q /\ (q == 125 # 8)%Q.
Proof.
  split; [vm_compute; reflexivity|].
  eexists. split; [reflexivity|]. vm_compute. reflexivity.
Qed.

Lemma n_chunks_fixed_rate self :
  RATE self = 16000 -> CHUNK self = 1024 ->
  n_chunks self = py_int (py_mul rate_per_chunk (RECORD_SECONDS self)).
Proof.
  intros HR HC. unfold n_chunks. rewrite HR, HC.
  now rewrite (proj1 rate_per_chunk_value).
Qed.

Lemma shiftl_neg_exp a p : Z.shiftl a (Z.neg p) = a / 2 ^ Z.pos p.
Proof.
  change (Z.neg p) with (- Z.pos p).
  rewrite Z.shiftl_opp_r, Z.shiftr_div_pow2 by lia. reflexivity.
Qed.

(** A finite positive float below 1 truncates to 0. *)
Lemma trunc_below_one mf ef :
  (inject_Z (Z.pos mf) * pow2Q ef < 1)%Q -> Z.shiftl (Z.pos mf) ef = 0.
Proof.
  destruct ef as [|p|p]; unfold Qlt; cbn [pow2Q Qmult inject_Z Qnum Qden].
  - cbn. lia.
  - pose proof (Z.pow_pos_nonneg 2 (Z.pos p)). nia.
  - intros H. rewrite shiftl_neg_exp. apply Z.div_small.
    rewrite Pos2Z.inj_mul, Pos2Z.inj_pow in H. lia.
Qed.

(** The chunk count of a positive duration whose product with the rate is
    below 1. *)
Lemma short_product_truncates_to_zero D q :
  float_pos D = true ->
  SF2Q (py_mul rate_per_chunk D) = Some q ->
  (q < 1)%Q ->
  py_int (py_mul rate_per_chunk D) = Ok 0.
Proof.
  destruct D as [s|[|]| |[|] m e]; try discriminate; intros _.
  unfold py_mul, rate_per_chunk. cbn [SFmul xorb].
  pose proof (round_exact_spec false (8796093022208000 * m) (-49 + e)) as Hspec.
  destruct (binary_round_aux 53 1024 false _ _ loc_Exact) as [s|s| |s mf ef];
    try discriminate; [reflexivity|].
  destruct Hspec as [-> _]. cbn [SF2Q py_int cond_Zopp].
  intros Hq Hlt. injection Hq as <-. now rewrite trunc_below_one.
Qed.

(** Three nested floors: from the rounding steps to the distance between
    the chunk count and the exact product. *)
Lemma nested_floor_bound (M m1 mf n A B C : Z) :
  0 < A -> 0 < B -> 0 < C ->
  (m1 - 1) * A < M < (m1 + 1) * A ->
  mf * B <= m1 < (mf + 1) * B ->
  n * C <= mf < (n + 1) * C ->
  (n - 1) * (A * B * C) < M < (n + 1) * (A * B * C).
Proof.
  intros HA HB HC H1 H2 H3.
  assert (HBC : 1 <= B * C) by nia.
  assert (U : m1 + 1 <= (n + 1) * (B * C)) by nia.
  assert (L : (n - 1) * (B * C) <= m1 - 1) by nia.
  split.
  - apply Z.le_lt_trans with ((m1 - 1) * A); [|lia].
    replace ((n - 1) * (A * B * C)) with ((n - 1) * (B * C) * A) by ring.
    apply Z.mul_le_mono_nonneg_r; lia.
  - apply Z.lt_le_trans with ((m1 + 1) * A); [lia|].
    replace ((n + 1) * (A * B * C)) with ((n + 1) * (B * C) * A) by ring.
    apply Z.mul_le_mono_nonneg_r; lia.
Qed.

(** The chunk count computed in binary64 is within one of the exact product
    of the duration with the rate, as long as it is below [2 ^ 53]. *)
Lemma chunk_count_exact_bound sx m e n :
  py_int (py_mul rate_per_chunk (S754_finite sx m e)) = Ok n ->
  1 <= n < 2 ^ 53 ->
  sx = false /\ e <= 49 /\
  (n - 1) * 2 ^ (49 - e) < 8796093022208000 * Z.pos m < (n + 1) * 2 ^ (49 - e).
Proof.
  unfold py_mul, rate_per_chunk. cbn [SFmul xorb].
  pose proof (round_exact_spec sx (8796093022208000 * m) (-49 + e)) as Hspec.
  destruct (binary_round_aux 53 1024 sx _ _ loc_Exact) as [s|s| |s mf ef];
    cbn [py_int]; try discriminate; intros Hn Hrange.
  - injection Hn as <-. lia.
  - injection Hn as <-.
    destruct Hspec as (-> & k1 & k2 & m1 & Hk1 & Hk2 & Hef & Hround & Hfloor & Hbig).
    destruct sx; cbn [cond_Zopp] in Hrange.
    + pose proof (proj2 (Z.shiftl_nonneg (Z.pos mf) ef) (Pos2Z.is_nonneg mf)). lia.
    + split; [reflexivity|].
      assert (Hle : ef <= 0).
      { destruct (Z_lt_le_dec 0 ef) as [Hpos|]; [exfalso|assumption].
        rewrite Z.shiftl_mul_pow2 in Hrange by lia.
        assert (H2 : 2 <= 2 ^ ef).
        { change 2 with (2 ^ 1) at 1. apply Z.pow_le_mono_r; lia. }
        assert (Hmf : 2 ^ 52 <= Z.pos mf).
        { destruct (Hbig Hpos) as [H | ->]; [exact H|].
          rewrite Pos2Z.inj_mul. change (2 ^ 52) with 4503599627370496.
          pose proof (Pos2Z.is_pos m). nia. }
        change (2 ^ 53) with (2 ^ 52 * 2) in Hrange.
        assert (2 ^ 52 * 2 <= Z.pos mf * 2 ^ ef); [|lia].
        apply Z.mul_le_mono_nonneg; lia. }
      rewrite Z.shiftl_div_pow2 by exact Hle.
      set (j := - ef) in *. assert (Hj : 0 <= j) by (unfold j; lia).
      assert (HA : 0 < 2 ^ k1) by (apply Z.pow_pos_nonneg; lia).
      assert (HB : 0 < 2 ^ k2) by (apply Z.pow_pos_nonneg; lia).
      assert (HC : 0 < 2 ^ j) by (apply Z.pow_pos_nonneg; lia).
      assert (Hdiv : Z.pos mf / 2 ^ j * 2 ^ j <= Z.pos mf < (Z.pos mf / 2 ^ j + 1) * 2 ^ j).
      { pose proof (Z.mul_div_le (Z.pos mf) (2 ^ j) HC).
        pose proof (Z.mul_succ_div_gt (Z.pos mf) (2 ^ j) HC). lia. }
      split; [unfold j in *; lia|].
      replace (49 - e) with (k1 + k2 + j) by (unfold j; lia).
      rewrite !Z.pow_add_r by lia.
      rewrite <- Pos2Z.inj_mul.
      apply (nested_floor_bound _ m1 (Z.pos mf)); assumption.
Qed.

Lemma chunk_count_error D n :
  py_int (py_mul rate_per_chunk D) = Ok n ->
  1 <= n < 2 ^ 53 ->
  exists d,
    SF2Q D = Some d /\ (0 < d)%Q /\
    (Qabs (inject_Z (n * 1024) - inject_Z 16000 * d) < inject_Z 1024)%Q.
Proof.
  destruct D as [s|s| |sx m e].
  - cbn. intros H; injection H as <-. lia.
  - cbn. discriminate.
  - cbn. discriminate.
  - intros Hn Hrange.
    destruct (chunk_count_exact_bound sx m e n Hn Hrange) as (-> & He & Hlo & Hhi).
    eexists. split; [reflexivity|]. cbn [cond_Zopp].
    destruct e as [|p|p].
    + change (2 ^ (49 - 0)) with 562949953421312 in *.
      split; [reflexivity|].
      apply Qabs_Qlt_condition. unfold Qlt. cbn. lia.
    + cbn [pow2Q]. set (Y := 2 ^ Z.pos p) in *.
      assert (HY : 0 < Y) by (apply Z.pow_pos_nonneg; lia).
      assert (HT : Y * 2 ^ (49 - Z.pos p) = 2 ^ 49).
      { unfold Y. rewrite <- Z.pow_add_r by lia. f_equal. lia. }
      split.
      * unfold Qlt, Qmult, inject_Z. cbn [Qnum Qden]. nia.
      * apply Qabs_Qlt_condition.
        unfold Qlt, Qminus, Qplus, Qopp, Qmult, inject_Z. cbn [Qnum Qden].
        cbn [Pos.mul].
        assert (Hlo' : (n - 1) * 2 ^ 49 < 8796093022208000 * (Z.pos m * Y)).
        { rewrite <- HT.
          replace ((n - 1) * (Y * 2 ^ (49 - Z.pos p)))
            with ((n - 1) * 2 ^ (49 - Z.pos p) * Y) by ring.
          replace (8796093022208000 * (Z.pos m * Y))
            with (8796093022208000 * Z.pos m * Y) by ring.
          apply Z.mul_lt_mono_pos_r; assumption. }
        assert (Hhi' : 8796093022208000 * (Z.pos m * Y) < (n + 1) * 2 ^ 49).
        { rewrite <- HT.
          replace ((n + 1) * (Y * 2 ^ (49 - Z.pos p)))
            with ((n + 1) * 2 ^ (49 - Z.pos p) * Y) by ring.
          replace (8796093022208000 * (Z.pos m * Y))
            with (8796093022208000 * Z.pos m * Y) by ring.
          apply Z.mul_lt_mono_pos_r; assumption. }
        change (2 ^ 49) with 562949953421312 in Hlo', Hhi'.
        set (mY := Z.pos m * Y) in *. lia.
    + cbn [pow2Q].
      split; [reflexivity|].
      apply Qabs_Qlt_condition.
      unfold Qlt, Qminus, Qplus, Qopp, Qmult, inject_Z. cbn [Qnum Qden].
      cbn [Pos.mul].
      rewrite Pos2Z.inj_pow.
      replace (49 - Z.neg p) with (49 + Z.pos p) in Hlo, Hhi by lia.
      rewrite Z.pow_add_r in Hlo, Hhi by lia.
      change (Z.pos 2) with 2. set (Y := 2 ^ Z.pos p) in *.
      change (2 ^ 49) with 562949953421312 in Hlo, Hhi.
      set (nY := n * Y) in *.
      replace ((n - 1) * (562949953421312 * Y)) with (562949953421312 * (n * Y - Y))
        in Hlo by ring.
      replace ((n + 1) * (562949953421312 * Y)) with (562949953421312 * (n * Y + Y))
        in Hhi by ring.
      replace (n * 1024 * Y) with (1024 * (n * Y)) by ring.
      fold nY in Hlo, Hhi |- *. lia.
Qed.

(** ** Windows shorter than one chunk *)

(** The durations used below are the floats of their decimal literals, and
    their chunk counts are those Python computes: [0.05] gives none, [0.064]
    gives a product of exactly [1.0] and one chunk, [0.1] one chunk and [5]
    seventy-eight. *)
Lemma literal_durations :
  py_truediv 1 10 = Ok seconds_0_1 /\
  py_truediv 1 20 = Ok seconds_0_05 /\
  py_truediv 64 1000 = Ok seconds_0_064 /\
  n_chunks (recognizer_with seconds_0_05) = Ok 0 /\
  py_mul rate_per_chunk seconds_0_064 = float_of_int 1 /\
  n_chunks (recognizer_with seconds_0_064) = Ok 1 /\
  n_chunks (recognizer_with seconds_0_1) = Ok 1 /\
  n_chunks (recognizer_with seconds_5) = Ok 78.
Proof. repeat split; vm_compute; reflexivity. Qed.

Lemma record_outcome_no_chunk dev h self w :
  n_chunks self = Ok 0 ->
  record_outcome dev h self w =
    (Raise (ValueError "need at least one array to concatenate"), (self, w)).
Proof.
  intros Hn. unfold record_outcome. rewrite Hn. cbn [Z.to_nat reads flat_map np_concatenate].
  unfold after_reads. cbn [map flat_map]. rewrite !app_nil_r, world_eta. reflexivity.
Qed.

(** C9.  For a recognizer with the fixed rate and chunk size and a positive
    duration [D] such that [RATE / CHUNK * D], as Python computes it, is
    below 1, the chunk count is 0: the loop reads nothing, [_record_audio]
    raises, with the [ValueError] of an empty concatenation once a stream
    is there, and [listen()] returns the empty string, whatever the device
    and the model do. *)
Theorem short_window_reads_nothing :
  forall (dev : Device) (mdl : Model) (self : WhisperRecognizer) (w : World) (q : Q),
    RATE self = 16000 -> CHUNK self = 1024 ->
    float_pos (RECORD_SECONDS self) = true ->
    SF2Q (py_mul rate_per_chunk (RECORD_SECONDS self)) = Some q ->
    (q < 1)%Q ->
    n_chunks self = Ok 0 /\
    (exists e, fst (_record_audio dev (self, w)) = Raise e) /\
    ((stream self <> None \/
      exists h, audio_open dev (trace w) (stream_args self) = Ok h) ->
     fst (_record_audio dev (self, w)) =
       Raise (ValueError "need at least one array to concatenate")) /\
    filter is_read (trace (snd (snd (_record_audio dev (self, w))))) =
      filter is_read (trace w) /\
    fst (WhisperRecognizer_listen dev mdl (self, w)) = Ok "".
Proof.
  intros dev mdl self w q HR HC Hpos Hq Hlt.
  assert (Hn : n_chunks self = Ok 0).
  { rewrite (n_chunks_fixed_rate self HR HC).
    exact (short_product_truncates_to_zero _ q Hpos Hq Hlt). }
  assert (Hraise : exists e, fst (_record_audio dev (self, w)) = Raise e /\
            ((stream self <> None \/
              exists h, audio_open dev (trace w) (stream_args self) = Ok h) ->
             e = ValueError "need at least one array to concatenate") /\
            filter is_read (trace (snd (snd (_record_audio dev (self, w))))) =
              filter is_read (trace w)).
  { destruct (stream self) as [h|] eqn:Hs.
    - rewrite (record_audio_open dev self w h Hs), (record_outcome_no_chunk dev h self w Hn).
      eexists. repeat split; reflexivity.
    - rewrite (record_audio_closed dev self w Hs).
      destruct (audio_open dev (trace w) (stream_args self)) as [h|e].
      + rewrite record_outcome_no_chunk by exact Hn. eexists.
        split; [reflexivity|]. split; [reflexivity|].
        cbn [snd log_event trace]. rewrite filter_app. apply app_nil_r.
      + exists e. split; [reflexivity|]. split.
        * intros [H|[h H]]; [congruence|discriminate].
        * cbn [snd log_event trace]. rewrite filter_app. apply app_nil_r. }
  destruct Hraise as (e & He & Hv & Htr).
  split; [exact Hn|]. split; [now exists e|]. split; [|split].
  - intros Ho. rewrite He. f_equal. exact (Hv Ho).
  - exact Htr.
  - eapply listen_body_raises, record_raises_body_raises, He.
Qed.

Lemma short_window_reads_nothing_witness :
  n_chunks (recognizer_with seconds_0_05) = Ok 0 /\
  fst (WhisperRecognizer_listen silent_device hello_model
         (recognizer_with seconds_0_05, initial_world)) = Ok "".
Proof.
  destruct (short_window_reads_nothing silent_device hello_model
              (recognizer_with seconds_0_05) initial_world _
              eq_refl eq_refl eq_refl eq_refl)
    as (Hn & _ & _ & _ & Hl).
  - vm_compute. reflexivity.
  - split; assumption.
Defined.

(** ** The length of a recording *)

Lemma frombuffer_even k :
  forall data,
    List.length data = (2 * k)%nat ->
    exists arr, frombuffer_int16 data = Ok arr /\ List.length arr = k.
Proof.
  induction k as [|k IH]; intros data Hlen.
  - destruct data; [|discriminate]. exists []. now split.
  - destruct data as [|lo [|hi rest]]; cbn in Hlen; try lia.
    destruct (IH rest ltac:(lia)) as (arr & Harr & Hk).
    cbn [frombuffer_int16]. rewrite Harr. eexists. split; [reflexivity|].
    cbn. now rewrite Hk.
Qed.

Lemma reads_all_succeed dev h chunk (c : nat) n :
  (forall t h, exists data,
      stream_read dev t h chunk false = Ok data /\ List.length data = (2 * c)%nat) ->
  forall t,
    List.length (List.concat (flat_map frame_of (reads dev h chunk n t))) = (n * c)%nat /\
    (0 < n -> flat_map frame_of (reads dev h chunk n t) <> [])%nat.
Proof.
  intros Hread. induction n as [|n IH]; intros t; [split; [reflexivity|lia]|].
  cbn [reads flat_map].
  destruct (Hread t h) as (data & -> & Hlen).
  destruct (frombuffer_even c data Hlen) as (arr & Harr & Hc).
  cbn [frame_of]. rewrite Harr. cbn [app List.concat].
  split; [|discriminate].
  rewrite length_app, Hc. destruct (IH (t ++ [EvRead h chunk false (Ok data)])%list) as [-> _].
  reflexivity.
Qed.

Lemma record_outcome_length dev h self w n :
  (forall t h, exists data,
      stream_read dev t h (CHUNK self) false = Ok data /\
      List.length data = (2 * Z.to_nat (CHUNK self))%nat) ->
  0 <= CHUNK self ->
  n_chunks self = Ok n -> 1 <= n ->
  exists audio,
    fst (record_outcome dev h self w) = Ok audio /\
    Z.of_nat (List.length audio) = n * CHUNK self.
Proof.
  intros Hread HC Hn Hpos. unfold record_outcome. rewrite Hn.
  destruct (reads_all_succeed dev h (CHUNK self) (Z.to_nat (CHUNK self)) (Z.to_nat n)
              Hread (trace w)) as [Hlen Hne].
  destruct (flat_map frame_of _) as [|f fs] eqn:Hfr; [exfalso; apply Hne; [lia|reflexivity]|].
  cbn [np_concatenate fst]. eexists. split; [reflexivity|].
  rewrite length_map, Hlen. lia.
Qed.

(** Beyond [2 ^ 53] chunks the product is rounded to a multiple of a power
    of two, and the count may be off by more than one chunk. *)
Lemma huge_duration_count :
  n_chunks (recognizer_with seconds_huge) = Ok 18014398509481988096 /\
  SF2Q seconds_huge = Some (inject_Z 1152921504606847232) /\
  18014398509481988096 * 1024 - 16000 * 1152921504606847232 = 96 * 1024.
Proof. repeat split; vm_compute; reflexivity. Qed.

(** C5, as the code has it.  For a recognizer with the fixed rate and chunk
    size whose chunk count [n = int(RATE / CHUNK * D)] is at least 1, on a
    device that opens and answers every read with [CHUNK] samples,
    [_record_audio] returns a buffer of [n * CHUNK] samples.  As long as
    [n] is below [2 ^ 53], that count differs from [RATE * D], taken
    exactly, by less than [CHUNK]. *)
Theorem recording_length :
  forall (dev : Device) (self : WhisperRecognizer) (w : World) (n : Z),
    RATE self = 16000 -> CHUNK self = 1024 ->
    (forall t a, exists h, audio_open dev t a = Ok h) ->
    (forall t h, exists data,
        stream_read dev t h 1024 false = Ok data /\ List.length data = 2048%nat) ->
    n_chunks self = Ok n ->
    1 <= n ->
    (exists audio,
        fst (_record_audio dev (self, w)) = Ok audio /\
        Z.of_nat (List.length audio) = n * CHUNK self) /\
    (n < 2 ^ 53 ->
     exists d,
       SF2Q (RECORD_SECONDS self) = Some d /\ (0 < d)%Q /\
       (Qabs (inject_Z (n * CHUNK self) - inject_Z (RATE self) * d)
          < inject_Z (CHUNK self))%Q).
Proof.
  intros dev self w n HR HC Hopen Hread Hn Hpos. split.
  - assert (Hread' : forall t h, exists data,
               stream_read dev t h (CHUNK self) false = Ok data /\
               List.length data = (2 * Z.to_nat (CHUNK self))%nat).
    { rewrite HC. exact Hread. }
    destruct (stream self) as [h|] eqn:Hs.
    + rewrite (record_audio_open dev self w h Hs).
      apply record_outcome_length; try assumption. lia.
    + rewrite (record_audio_closed dev self w Hs).
      destruct (Hopen (trace w) (stream_args self)) as [h ->].
      apply (record_outcome_length dev h (set_stream (Some h) self)); try assumption.
      cbn [set_stream CHUNK]. lia.
  - intros Hlt. rewrite HR, HC.
    rewrite (n_chunks_fixed_rate self HR HC) in Hn.
    exact (chunk_count_error _ n Hn (conj Hpos Hlt)).
Qed.

Lemma recording_length_witness :
  (exists audio,
      fst (_record_audio silent_device (recognizer_with seconds_5, initial_world)) = Ok audio /\
      Z.of_nat (List.length audio) = 78 * 1024) /\
  exists d,
    SF2Q seconds_5 = Some d /\ (0 < d)%Q /\
    (Qabs (inject_Z (78 * 1024) - inject_Z 16000 * d) < inject_Z 1024)%Q.
Proof.
  destruct (recording_length silent_device (recognizer_with seconds_5) initial_world 78
              eq_refl eq_refl) as [Hlen Hbound].
  - intros t a. exists 0%nat. reflexivity.
  - intros t h. eexists. split; [reflexivity|]. apply repeat_length.
  - vm_compute. reflexivity.
  - lia.
  - split; [exact Hlen|]. apply Hbound. reflexivity.
Defined.

(** C5, as stated, fails: one twentieth of a second is a positive duration,
    every read of the device succeeds with [CHUNK] samples, and yet
    [_record_audio] returns no buffer; the chunk count is 0 and the
    concatenation of no frame raises. *)
Lemma short_duration_returns_no_buffer :
  float_pos seconds_0_05 = true /\
  (forall t h, stream_read silent_device t h 1024 false = Ok (repeat x00 2048)) /\
  n_chunks (recognizer_with seconds_0_05) = Ok 0 /\
  fst (_record_audio silent_device (recognizer_with seconds_0_05, initial_world)) =
    Raise (ValueError "need at least one array to concatenate").
Proof.
  split; [reflexivity|]. split; [intros t h; reflexivity|].
  split; vm_compute; reflexivity.
Qed.

(** * Further properties *)

(** ** Trimming *)

Lemma lstrip_no_leading_space s : starts_with_space (lstrip s) = false.
Proof.
  induction s as [|c s IH]; [reflexivity|].
  cbn [lstrip]. destruct (py_isspace c) eqn:Hc; [exact IH|].
  cbn. exact Hc.
Qed.

Lemma string_rev_involutive s : string_rev (string_rev s) = s.
Proof.
  unfold string_rev.
  now rewrite list_ascii_of_string_of_list_ascii, rev_involutive,
    string_of_list_ascii_of_string.
Qed.

Lemma string_of_list_ascii_app l1 l2 :
  string_of_list_ascii (l1 ++ l2) =
    (string_of_list_ascii l1 ++ string_of_list_ascii l2)%string.
Proof. induction l1 as [|c l1 IH]; cbn; now rewrite ?IH. Qed.

Lemma list_ascii_of_string_app s1 s2 :
  list_ascii_of_string (s1 ++ s2)%string =
    (list_ascii_of_string s1 ++ list_ascii_of_string s2)%list.
Proof. induction s1 as [|c s1 IH]; cbn; now rewrite ?IH. Qed.

Lemma string_rev_cons c s :
  string_rev (String c s) = (string_rev s ++ String c EmptyString)%string.
Proof.
  unfold string_rev. cbn [list_ascii_of_string rev].
  now rewrite string_of_list_ascii_app.
Qed.

Lemma string_rev_snoc s c :
  string_rev (s ++ String c EmptyString)%string = String c (string_rev s).
Proof.
  unfold string_rev. rewrite list_ascii_of_string_app, rev_app_distr. reflexivity.
Qed.

(** Stripping on the left keeps a last character that is not white space. *)
Lemma lstrip_snoc s c :
  py_isspace c = false ->
  exists s', lstrip (s ++ String c EmptyString)%string = (s' ++ String c EmptyString)%string.
Proof.
  intros Hc. induction s as [|a s IH].
  - exists EmptyString. cbn. now rewrite Hc.
  - cbn [String.append lstrip]. destruct (py_isspace a); [exact IH|].
    now exists (String a s).
Qed.

Lemma rstrip_keeps_head c s :
  py_isspace c = false -> exists s', rstrip (String c s) = String c s'.
Proof.
  intros Hc. unfold rstrip. rewrite string_rev_cons.
  destruct (lstrip_snoc (string_rev s) c Hc) as [s' ->].
  rewrite string_rev_snoc. now eexists.
Qed.

Lemma rstrip_empty : rstrip EmptyString = EmptyString.
Proof. reflexivity. Qed.

Lemma str_strip_trimmed s :
  starts_with_space (str_strip s) = false /\ ends_with_space (str_strip s) = false.
Proof.
  unfold str_strip. split.
  - pose proof (lstrip_no_leading_space s) as H.
    destruct (lstrip s) as [|c t]; [reflexivity|].
    cbn in H. destruct (rstrip_keeps_head c t H) as [t' ->]. exact H.
  - unfold ends_with_space, rstrip. rewrite string_rev_involutive.
    apply lstrip_no_leading_space.
Qed.

(** Stripping leaves alone a string that has no white space at either end. *)
Lemma lstrip_fixed s : starts_with_space s = false -> lstrip s = s.
Proof. destruct s as [|c s]; [reflexivity|]. cbn. now intros ->. Qed.

Lemma str_strip_fixed s :
  starts_with_space s = false -> ends_with_space s = false -> str_strip s = s.
Proof.
  intros Hl Hr. unfold str_strip, rstrip. rewrite (lstrip_fixed s Hl).
  unfold ends_with_space in Hr. rewrite (lstrip_fixed _ Hr).
  apply string_rev_involutive.
Qed.

(** ** What [listen] returns *)

Section ListenResult.

Context (dev : Device) (mdl : Model).

Lemma transcribe_audio_run audio s1 :
  let r := transcribe mdl (trace (snd s1)) audio whisper_opts in
  fst (transcribe_audio mdl audio s1) =
    match r with
    | Ok (PyDict items) =>
        match dict_get items "text" with
        | Some (PyStr s) => Ok (str_strip s)
        | Some PyNone => Raise (AttributeError "'NoneType' object has no attribute 'strip'")
        | Some (PyNum _) => Raise (AttributeError "'int' object has no attribute 'strip'")
        | None => Raise (KeyError "text")
        end
    | Ok (PyVal (PyStr _)) => Raise (TypeError "string indices must be integers")
    | Ok (PyVal PyNone) => Raise (TypeError "'NoneType' object is not subscriptable")
    | Ok (PyVal (PyNum _)) => Raise (TypeError "'int' object is not subscriptable")
    | Raise e => Raise e
    end /\
  fst (snd (transcribe_audio mdl audio s1)) = fst s1 /\
  trace (snd (snd (transcribe_audio mdl audio s1))) =
    (trace (snd s1) ++ [EvTranscribe audio whisper_opts r])%list.
Proof.
  cbn zeta. unfold transcribe_audio. run_py.
  destruct (transcribe mdl (trace (snd s1)) audio whisper_opts) as [[[|s|z]|items]|e];
    cbn [py_getitem fst snd trace]; try (repeat split; reflexivity).
  destruct (dict_get items "text") as [[|s|z]|]; cbn [py_strip fst snd trace];
    repeat split; reflexivity.
Qed.

Lemma listen_after_recording self w audio s1 :
  _record_audio dev (self, w) = (Ok audio, s1) ->
  let r := transcribe mdl (trace (snd s1)) audio whisper_opts in
  fst (WhisperRecognizer_listen dev mdl (self, w)) = Ok (text_of r) /\
  fst (snd (WhisperRecognizer_listen dev mdl (self, w))) = fst s1 /\
  trace (snd (snd (WhisperRecognizer_listen dev mdl (self, w)))) =
    (trace (snd s1) ++ [EvTranscribe audio whisper_opts r])%list.
Proof.
  intros Hrec r. subst r. rewrite listen_run. unfold listen_body, bind. rewrite Hrec.
  destruct (transcribe_audio_run audio s1) as (Hres & Hobj & Htr). cbn zeta in *.
  destruct (transcribe_audio mdl audio s1) as [[text|e] s2]; cbn [fst snd] in *.
  - split; [|now split].
    destruct (transcribe mdl (trace (snd s1)) audio whisper_opts) as [[[|s|z]|items]|e];
      try discriminate.
    cbn [text_of]. destruct (dict_get items "text") as [[|s|z]|]; try discriminate.
    exact Hres.
  - cbn [report_failure trace]. split; [|now split].
    destruct (transcribe mdl (trace (snd s1)) audio whisper_opts) as [[[|s|z]|items]|e'];
      try reflexivity.
    cbn [text_of]. destruct (dict_get items "text") as [[|s|z]|]; try reflexivity.
    discriminate.
Qed.

End ListenResult.

(** X1.  Once a recording has returned a buffer, [listen()] calls the model
    once, on that buffer and with the fixed options, and its result is
    decided by the answer alone: the trimmed text when the answer is a
    dictionary whose ["text"] entry is a string, and the empty string in
    every other case, be it an exception, an answer that is no dictionary, a
    missing ["text"] entry or an entry that is no string. *)
Theorem listen_result_by_model_answer :
  forall (dev : Device) (mdl : Model) (self : WhisperRecognizer) (w : World) audio s1,
    _record_audio dev (self, w) = (Ok audio, s1) ->
    let r := transcribe mdl (trace (snd s1)) audio whisper_opts in
    let after := WhisperRecognizer_listen dev mdl (self, w) in
    fst after = Ok (text_of r) /\
    new_events w (snd after) =
      (new_events w s1 ++ [EvTranscribe audio whisper_opts r])%list.
Proof.
  intros dev mdl self w audio s1 Hrec r after. subst r after.
  destruct (listen_after_recording dev mdl self w audio s1 Hrec) as (Hres & _ & Htr).
  cbn zeta in *. split; [exact Hres|].
  assert (Hext : exists evs, trace (snd s1) = (trace w ++ evs)%list).
  { destruct (stream self) as [h|] eqn:Hs.
    - rewrite (record_audio_open dev self w h Hs) in Hrec.
      destruct (record_outcome_samples dev h self w audio s1 Hrec) as (rs & _ & H).
      eauto.
    - rewrite (record_audio_closed dev self w Hs) in Hrec.
      destruct (audio_open dev (trace w) (stream_args self)) as [h|e]; [|discriminate].
      destruct (record_outcome_samples dev h _ _ audio s1 Hrec) as (rs & _ & H).
      rewrite H. cbn [log_event trace]. rewrite <- app_assoc. eauto. }
  destruct Hext as [evs Hevs].
  rewrite (new_events_app w s1 evs Hevs).
  apply new_events_app. rewrite Htr, Hevs. now rewrite app_assoc.
Qed.

Lemma listen_result_by_model_answer_witness :
  fst (WhisperRecognizer_listen silent_device hello_model
         (recognizer_with seconds_0_1, initial_world)) = Ok "hello".
Proof.
  destruct (listen_result_by_model_answer silent_device hello_model
              (recognizer_with seconds_0_1) initial_world
              (repeat (S754_zero false) 1024)
              (snd (_record_audio silent_device (recognizer_with seconds_0_1, initial_world))))
    as [Hres _].
  - vm_compute. reflexivity.
  - exact Hres.
Defined.

Lemma transcribe_audio_text mdl audio s1 text :
  fst (transcribe_audio mdl audio s1) = Ok text -> exists s, text = str_strip s.
Proof.
  destruct (transcribe_audio_run mdl audio s1) as (Hres & _).
  cbn zeta in Hres. rewrite Hres.
  destruct (transcribe mdl (trace (snd s1)) audio whisper_opts) as [[[|s|z]|items]|e];
    try discriminate.
  destruct (dict_get items "text") as [[|s|z]|]; try discriminate.
  intros H. injection H as <-. now exists s.
Qed.

(** X2.  The text [WhisperRecognizer.listen()] returns never begins or ends
    with white space, and trimming it again changes nothing. *)
Theorem listen_text_is_trimmed :
  forall (dev : Device) (mdl : Model) (s : WhisperRecognizer * World) (text : string),
    fst (WhisperRecognizer_listen dev mdl s) = Ok text ->
    starts_with_space text = false /\
    ends_with_space text = false /\
    str_strip text = text.
Proof.
  intros dev mdl s text. rewrite listen_run.
  assert (Hempty : starts_with_space "" = false /\ ends_with_space "" = false /\
                   str_strip "" = "") by (repeat split; reflexivity).
  destruct (listen_body dev mdl s) as [[t|e] s2] eqn:Hbody; cbn [fst];
    intros H; injection H as <-; [|exact Hempty].
  unfold listen_body, bind in Hbody.
  destruct (_record_audio dev s) as [[audio|e] s1]; [|discriminate].
  destruct (transcribe_audio_text mdl audio s1 t) as [raw ->].
  { now rewrite Hbody. }
  destruct (str_strip_trimmed raw) as [Hl Hr].
  split; [exact Hl|]. split; [exact Hr|]. now apply str_strip_fixed.
Qed.

Lemma listen_text_is_trimmed_witness :
  starts_with_space "hello" = false /\ ends_with_space "hello" = false.
Proof.
  destruct (listen_text_is_trimmed silent_device hello_model
              (recognizer_with seconds_0_1, initial_world) "hello") as (Hl & Hr & _).
  - vm_compute. reflexivity.
  - now split.
Defined.

(** ** The loop is best effort *)

Lemma frombuffer_length n :
  forall data,
    (List.length data <= n)%nat ->
    match frombuffer_int16 data with
    | Ok arr =>
        Nat.even (List.length data) = true /\
        List.length arr = Nat.div2 (List.length data)
    | Raise e =>
        Nat.even (List.length data) = false /\
        e = ValueError "buffer size must be a multiple of element size"
    end.
Proof.
  induction n as [|n IH]; intros data Hlen.
  - destruct data; [now split|cbn in Hlen; lia].
  - destruct data as [|lo [|hi rest]]; [now split|now split|].
    cbn [frombuffer_int16]. specialize (IH rest ltac:(cbn in Hlen; lia)).
    destruct (frombuffer_int16 rest) as [xs|e]; destruct IH as [He Hl];
      cbn [List.length Nat.even Nat.div2]; split; auto.
Qed.

Lemma frame_of_kept r :
  List.length (frame_of r) = (if kept r then 1 else 0)%nat /\
  List.length (complaint_of r) = (if kept r then 0 else 1)%nat /\
  List.length (List.concat (frame_of r)) = samples_of r.
Proof.
  unfold frame_of, complaint_of, samples_of, kept. destruct r as [data|e]; [|now repeat split].
  pose proof (frombuffer_length (List.length data) data (le_n _)) as H.
  destruct (frombuffer_int16 data) as [arr|e]; destruct H as [-> H]; cbn;
    repeat split; try reflexivity.
  rewrite app_nil_r. exact H.
Qed.

Lemma frames_of_reads rs :
  List.length (flat_map frame_of rs) = List.length (filter kept rs) /\
  List.length (flat_map complaint_of rs) = List.length (filter (fun r => negb (kept r)) rs) /\
  List.length (List.concat (flat_map frame_of rs)) = list_sum (map samples_of rs) /\
  (flat_map frame_of rs = [] <-> existsb kept rs = false).
Proof.
  induction rs as [|r rs (IH1 & IH2 & IH3 & IH4)]; [repeat split; reflexivity|].
  destruct (frame_of_kept r) as (H1 & H2 & H3).
  cbn [flat_map filter map list_sum existsb negb].
  rewrite !length_app, concat_app, length_app, IH1, IH2, IH3, H1, H2, H3.
  destruct (kept r); cbn [negb orb List.length]; repeat split; try lia.
  - intros H. apply app_eq_nil in H. destruct H as [H _].
    rewrite H in H1. discriminate.
  - intros H. apply app_eq_nil in H. now apply IH4.
  - intros H. apply IH4 in H. rewrite H, app_nil_r.
    destruct (frame_of r); [reflexivity|discriminate].
Qed.

Lemma reads_length dev h chunk n :
  forall t, List.length (reads dev h chunk n t) = n.
Proof. induction n as [|n IH]; intros t; cbn; now rewrite ?IH. Qed.

(** X3.  With a stream in hand and a chunk count [n], [_record_audio] asks
    the device for exactly [n] reads of [CHUNK] frames, one after the other
    and none of them twice.  A read that raises, or that returns an odd
    number of bytes, is dropped with one printed line; every other read
    contributes half as many samples as it returned bytes.  The call returns
    the buffer of these samples if at least one read was kept, and raises
    the [ValueError] of an empty concatenation otherwise. *)
Theorem record_audio_keeps_what_it_can :
  forall (dev : Device) (self : WhisperRecognizer) (w : World) (h : handle) (n : Z),
    stream self = Some h ->
    n_chunks self = Ok n ->
    let out := _record_audio dev (self, w) in
    exists rs lines,
      List.length rs = Z.to_nat n /\
      new_events w (snd out) = map (EvRead h (CHUNK self) false) rs /\
      stdout (snd (snd out)) = (stdout w ++ lines)%list /\
      List.length lines = List.length (filter (fun r => negb (kept r)) rs) /\
      match fst out with
      | Ok audio =>
          existsb kept rs = true /\
          List.length audio = list_sum (map samples_of rs)
      | Raise e =>
          existsb kept rs = false /\
          e = ValueError "need at least one array to concatenate"
      end.
Proof.
  intros dev self w h n Hs Hn out. subst out.
  rewrite (record_audio_open dev self w h Hs). unfold record_outcome. rewrite Hn.
  set (rs := reads dev h (CHUNK self) (Z.to_nat n) (trace w)).
  destruct (frames_of_reads rs) as (H1 & H2 & H3 & H4).
  exists rs, (flat_map complaint_of rs). cbn [fst snd after_reads stdout].
  split; [apply reads_length|]. split; [now apply new_events_app|].
  split; [reflexivity|]. split; [exact H2|].
  destruct (flat_map frame_of rs) as [|f fs] eqn:Hfr; cbn [np_concatenate].
  - split; [now apply H4|reflexivity].
  - split.
    + destruct (existsb kept rs); [reflexivity|].
      destruct H4 as [_ H4]. discriminate (H4 eq_refl).
    + rewrite length_map. exact H3.
Qed.

Lemma record_audio_keeps_what_it_can_witness :
  let out := _record_audio flaky_device
               (set_stream (Some 0%nat) (recognizer_with seconds_0_2), initial_world) in
  (exists audio, fst out = Ok audio /\ List.length audio = 1024%nat) /\
  List.length (stdout (snd (snd out))) = 2%nat.
Proof.
  destruct (record_audio_keeps_what_it_can flaky_device
              (set_stream (Some 0%nat) (recognizer_with seconds_0_2)) initial_world
              0%nat 3 eq_refl) as (rs & lines & Hlen & Hev & Hout & Hlines & Hres).
  - vm_compute. reflexivity.
  - cbv zeta. split.
    + eexists. split; vm_compute; reflexivity.
    + vm_compute. reflexivity.
Defined.

(** ** What a call adds to the history *)

Section History.

Context (dev : Device) (mdl : Model).

(** Recording adds at most one call of [open], then reads on the stream the
    recognizer holds once the call is over. *)
Lemma record_audio_new_events self w :
  let out := _record_audio dev (self, w) in
  exists evs,
    trace (snd (snd out)) = (trace w ++ evs)%list /\
    Forall (fun ev =>
              match ev with
              | EvOpen _ _ => stream self = None
              | EvRead h _ _ _ => stream (fst (snd out)) = Some h
              | _ => False
              end) evs.
Proof.
  cbn zeta.
  assert (Hout : forall h self0 w0,
             stream self0 = Some h ->
             exists evs,
               trace (snd (snd (record_outcome dev h self0 w0))) = (trace w0 ++ evs)%list /\
               fst (snd (record_outcome dev h self0 w0)) = self0 /\
               Forall (fun ev => match ev with
                                 | EvRead h' _ _ _ => Some h = Some h'
                                 | _ => False
                                 end) evs).
  { intros h self0 w0 Hs0. unfold record_outcome.
    destruct (n_chunks self0) as [n|e].
    - eexists. cbn [fst snd after_reads trace]. split; [reflexivity|].
      split; [reflexivity|]. apply Forall_map, Forall_forall. reflexivity.
    - exists []. cbn [fst snd]. rewrite app_nil_r. repeat split. constructor. }
  destruct (stream self) as [h|] eqn:Hs.
  - rewrite (record_audio_open dev self w h Hs).
    destruct (Hout h self w Hs) as (evs & Htr & Hobj & Hall).
    exists evs. split; [exact Htr|]. rewrite Hobj, Hs.
    eapply Forall_impl; [|exact Hall]. intros [] H; auto; contradiction.
  - rewrite (record_audio_closed dev self w Hs).
    destruct (audio_open dev (trace w) (stream_args self)) as [h|e].
    + destruct (Hout h (set_stream (Some h) self)
                  (log_event (EvOpen (stream_args self) (Ok h)) w) eq_refl)
        as (evs & Htr & Hobj & Hall).
      exists (EvOpen (stream_args self) (Ok h) :: evs).
      rewrite Htr, Hobj. cbn [log_event trace set_stream stream].
      split; [now rewrite <- app_assoc|].
      constructor; [reflexivity|].
      eapply Forall_impl; [|exact Hall]. intros [] H; auto; contradiction.
    + exists [EvOpen (stream_args self) (Raise e)]. cbn [fst snd log_event trace].
      split; [reflexivity|]. constructor; [reflexivity|constructor].
Qed.

(** [listen] adds what recording adds and then, if a buffer came back, one
    call of the model. *)
Lemma listen_new_events self w :
  new_events w (snd (WhisperRecognizer_listen dev mdl (self, w))) =
    (new_events w (snd (_record_audio dev (self, w))) ++
     match _record_audio dev (self, w) with
     | (Ok audio, s1) =>
         [EvTranscribe audio whisper_opts
            (transcribe mdl (trace (snd s1)) audio whisper_opts)]
     | (Raise _, _) => []
     end)%list /\
  fst (snd (WhisperRecognizer_listen dev mdl (self, w))) =
    fst (snd (_record_audio dev (self, w))).
Proof.
  destruct (record_audio_new_events self w) as (evs & Htr & _). cbn zeta in Htr.
  destruct (_record_audio dev (self, w)) as [[audio|e] s1] eqn:Hrec; cbn [snd] in *.
  - destruct (listen_after_recording dev mdl self w audio s1 Hrec) as (_ & Hobj & Hl).
    cbn zeta in Hl. split; [|exact Hobj].
    rewrite (new_events_app w s1 evs Htr).
    apply new_events_app. rewrite Hl, Htr. now rewrite app_assoc.
  - assert (He : fst (_record_audio dev (self, w)) = Raise e) by now rewrite Hrec.
    pose proof (listen_trace_when_record_raises dev mdl (self, w) e He) as Hl.
    destruct (listen_after_record dev mdl is_open (self, w)) as [Hobj _]; [reflexivity|].
    rewrite Hrec in Hl, Hobj. cbn [snd] in Hl. split; [|exact Hobj].
    rewrite app_nil_r, (new_events_app w s1 evs Htr).
    apply new_events_app. now rewrite Hl.
Qed.

End History.

(** X4.  A call of [listen()] never stops or closes a stream and never
    terminates the device: the calls of these three kinds in the history are
    those that were there before.  It calls the model once if the recording
    returned a buffer and not at all if the recording raised. *)
Theorem listen_never_releases_the_device :
  forall (dev : Device) (mdl : Model) (self : WhisperRecognizer) (w : World),
    let after := WhisperRecognizer_listen dev mdl (self, w) in
    filter is_stop (trace (snd (snd after))) = filter is_stop (trace w) /\
    filter is_close (trace (snd (snd after))) = filter is_close (trace w) /\
    filter is_terminate (trace (snd (snd after))) = filter is_terminate (trace w) /\
    List.length (filter is_transcribe (new_events w (snd after))) =
      match fst (_record_audio dev (self, w)) with
      | Ok _ => 1%nat
      | Raise _ => 0%nat
      end.
Proof.
  intros dev mdl self w after. subst after.
  assert (Hkeep : forall f,
             (forall h c b r, f (EvRead h c b r) = false) ->
             (forall a r, f (EvOpen a r) = false) ->
             (forall a o r, f (EvTranscribe a o r) = false) ->
             filter f (trace (snd (snd (WhisperRecognizer_listen dev mdl (self, w))))) =
               filter f (trace w)).
  { intros f Hr Ho Ht.
    destruct (listen_after_record dev mdl f (self, w) Ht) as [_ ->].
    now apply record_audio_filter. }
  split; [now apply Hkeep|]. split; [now apply Hkeep|]. split; [now apply Hkeep|].
  destruct (listen_new_events dev mdl self w) as [-> _].
  destruct (record_audio_new_events dev self w) as (evs & Htr & Hall). cbn zeta in *.
  rewrite (new_events_app w _ evs Htr), filter_app, length_app.
  assert (Hnone : filter is_transcribe evs = []).
  { clear Htr. induction Hall as [|ev evs Hev _ IH]; [reflexivity|].
    destruct ev; cbn; try contradiction; exact IH. }
  rewrite Hnone. destruct (_record_audio dev (self, w)) as [[audio|e] s1]; reflexivity.
Qed.

(** X5.  Every call of the model that [listen()] makes is on the buffer the
    recording returned, whose samples all lie in [[-1.0, 1.0]], and carries
    the options [fp16=False], [language="en"] and
    [initial_prompt="stop listening"]. *)
Theorem model_is_called_on_normalized_audio :
  forall (dev : Device) (mdl : Model) (self : WhisperRecognizer) (w : World)
         audio opts r,
    In (EvTranscribe audio opts r)
       (new_events w (snd (WhisperRecognizer_listen dev mdl (self, w)))) ->
    fst (_record_audio dev (self, w)) = Ok audio /\
    Forall (fun y => f32_between f32_minus_one f32_one y = true) audio /\
    opts = {| fp16 := false; language := "en"; initial_prompt := "stop listening" |}.
Proof.
  intros dev mdl self w audio opts r Hin.
  destruct (listen_new_events dev mdl self w) as [Hnew _]. rewrite Hnew in Hin.
  destruct (record_audio_new_events dev self w) as (evs & Htr & Hall). cbn zeta in *.
  rewrite (new_events_app w _ evs Htr) in Hin.
  apply in_app_or in Hin. destruct Hin as [Hin|Hin].
  { rewrite Forall_forall in Hall. now specialize (Hall _ Hin). }
  destruct (_record_audio dev (self, w)) as [[audio0|e] s1] eqn:Hrec; [|contradiction].
  destruct Hin as [Heq|[]]. injection Heq as <- <- _.
  split; [reflexivity|]. split; [|reflexivity].
  destruct (record_audio_samples (fun _ => True) dev self w audio0 s1 Hrec)
    as (raw & -> & Hraw); [intros; now apply Forall_forall|].
  apply Forall_map. eapply Forall_impl; [|exact Hraw].
  cbn. intros x (lo & hi & _ & _ & ->).
  apply sample_ok_spec, sample_ok_int16, int16_of_bytes_range.
Qed.

Lemma model_is_called_on_normalized_audio_witness :
  Forall (fun y => f32_between f32_minus_one f32_one y = true)
         (repeat (S754_zero false) 1024).
Proof.
  apply (model_is_called_on_normalized_audio silent_device hello_model
           (recognizer_with seconds_0_1) initial_world
           (repeat (S754_zero false) 1024) whisper_opts
           (Ok (PyDict [("text", PyStr " hello ")]))).
  replace (new_events initial_world
             (snd (WhisperRecognizer_listen silent_device hello_model
                     (recognizer_with seconds_0_1, initial_world))))
    with [EvOpen (stream_args (recognizer_with seconds_0_1)) (Ok 0%nat);
          EvRead 0%nat 1024 false (Ok (repeat x00 2048));
          EvTranscribe (repeat (S754_zero false) 1024) whisper_opts
            (Ok (PyDict [("text", PyStr " hello ")]))]
    by (vm_compute; reflexivity).
  right. right. left. reflexivity.
Defined.

(** X6.  However many times [listen()] is called on a recognizer, the
    logging state is as it was: the recognizer writes no line and adds no
    handler. *)
Theorem recognizer_never_logs :
  forall (dev : Device) (mdl : Model) (n : nat) (s : WhisperRecognizer * World),
    log_state (snd (after_listens dev mdl n s)) = log_state (snd s).
Proof.
  intros dev mdl n. induction n as [|n IH]; intros s; [reflexivity|].
  cbn [after_listens]. rewrite IH. apply listen_log.
Qed.

(** ** After teardown *)

Lemma del_keeps_object dev self w :
  fst (snd (WhisperRecognizer_del dev (self, w))) = self.
Proof.
  unfold WhisperRecognizer_del. run_py.
  destruct (stream self) as [h|]; cbn [fst snd trace]; [|reflexivity].
  destruct (stream_stop_stream dev (trace w) h); cbn [fst snd trace]; [|reflexivity].
  destruct (stream_close dev _ h); reflexivity.
Qed.

(** X7.  [__del__] does not clear [self.stream]: a recognizer that held a
    stream still holds the same handle afterwards, so a later [listen()]
    does not open a new stream, and every read it makes is on the handle
    that was stopped and closed. *)
Theorem stream_field_survives_teardown :
  forall (dev : Device) (mdl : Model) (self : WhisperRecognizer) (w : World) (h : handle),
    stream self = Some h ->
    let torn := snd (WhisperRecognizer_del dev (self, w)) in
    let after := snd (WhisperRecognizer_listen dev mdl torn) in
    stream (fst torn) = Some h /\
    stream (fst after) = Some h /\
    filter is_open (new_events (snd torn) after) = [] /\
    Forall (fun ev => match ev with
                      | EvRead h' _ _ _ => h' = h
                      | _ => True
                      end) (new_events (snd torn) after).
Proof.
  intros dev mdl self w h Hs torn after. subst torn after.
  pose proof (del_keeps_object dev self w) as Hobj.
  destruct (snd (WhisperRecognizer_del dev (self, w))) as [self1 w1].
  cbn [fst snd] in *. subst self1.
  destruct (listen_new_events dev mdl self w1) as [Hnew Hobj].
  destruct (record_audio_new_events dev self w1) as (evs & Htr & Hall). cbn zeta in *.
  rewrite (new_events_app w1 _ evs Htr) in Hnew.
  assert (Hst : stream (fst (snd (_record_audio dev (self, w1)))) = Some h).
  { rewrite (record_audio_open dev self w1 h Hs), record_outcome_object. exact Hs. }
  rewrite Hst in Hall.
  split; [exact Hs|]. split; [now rewrite Hobj|].
  rewrite Hnew. split.
  - rewrite filter_app.
    assert (Hno : filter is_open evs = []).
    { clear Htr Hnew. induction Hall as [|ev evs Hev _ IH]; [reflexivity|].
      destruct ev; cbn; try contradiction; [congruence|exact IH]. }
    rewrite Hno. destruct (_record_audio dev (self, w1)) as [[a|e] s1]; reflexivity.
  - apply Forall_app. split.
    + eapply Forall_impl; [|exact Hall]. intros [] H; auto. congruence.
    + destruct (_record_audio dev (self, w1)) as [[a|e] s1]; repeat constructor.
Qed.

Lemma stream_field_survives_teardown_witness :
  let used := after_listens silent_device hello_model 1
                (recognizer_with seconds_0_1, initial_world) in
  let torn := snd (WhisperRecognizer_del silent_device used) in
  filter is_close (trace (snd torn)) = [EvClose 0%nat (Ok tt)] /\
  stream (fst (snd (WhisperRecognizer_listen silent_device hello_model torn))) = Some 0%nat.
Proof.
  cbv zeta. split; [vm_compute; reflexivity|].
  destruct (stream_field_survives_teardown silent_device hello_model
              (fst (after_listens silent_device hello_model 1
                      (recognizer_with seconds_0_1, initial_world)))
              (snd (after_listens silent_device hello_model 1
                      (recognizer_with seconds_0_1, initial_world)))
              0%nat) as (_ & Hst & _).
  - vm_compute. reflexivity.
  - rewrite <- surjective_pairing in Hst. exact Hst.
Defined.

(** ** A device that does not open *)

Lemma listen_when_open_raises dev mdl self w e :
  stream self = None ->
  audio_open dev (trace w) (stream_args self) = Raise e ->
  WhisperRecognizer_listen dev mdl (self, w) =
    (Ok "", (self, report_failure e (log_event (EvOpen (stream_args self) (Raise e)) w))).
Proof.
  intros Hs Ho. rewrite listen_run. unfold listen_body, bind.
  rewrite (record_audio_closed dev self w Hs), Ho. reflexivity.
Qed.

(** X8.  When the device refuses to open, [listen()] returns the empty
    string without a read or a call of the model, the recognizer is left
    without a stream, and the next call asks the device again: after [n]
    calls, [open] has been called [n] more times. *)
Theorem failed_open_is_retried :
  forall (dev : Device) (mdl : Model) (self : WhisperRecognizer) (w : World) (n : nat),
    (forall t a, exists e, audio_open dev t a = Raise e) ->
    stream self = None ->
    let s := after_listens dev mdl n (self, w) in
    fst s = self /\
    open_calls (trace (snd s)) = (open_calls (trace w) + n)%nat /\
    streams_opened (trace (snd s)) = streams_opened (trace w) /\
    filter is_read (trace (snd s)) = filter is_read (trace w) /\
    filter is_transcribe (trace (snd s)) = filter is_transcribe (trace w) /\
    fst (WhisperRecognizer_listen dev mdl s) = Ok "".
Proof.
  intros dev mdl self w n Hopen Hs. revert w.
  induction n as [|n IH]; intros w s; subst s.
  - cbn [after_listens fst snd]. rewrite Nat.add_0_r. repeat split.
    destruct (Hopen (trace w) (stream_args self)) as [e He].
    now rewrite (listen_when_open_raises dev mdl self w e Hs He).
  - cbn [after_listens].
    destruct (Hopen (trace w) (stream_args self)) as [e He].
    rewrite (listen_when_open_raises dev mdl self w e Hs He). cbn [snd].
    destruct (IH (report_failure e (log_event (EvOpen (stream_args self) (Raise e)) w)))
      as (H1 & H2 & H3 & H4 & H5 & H6).
    cbn zeta in *. rewrite H1, H2, H3, H4, H5.
    unfold open_calls, streams_opened.
    cbn [report_failure log_event trace]. rewrite !filter_app, !length_app.
    cbn. rewrite !app_nil_r. repeat split; try lia. exact H6.
Qed.

Lemma failed_open_is_retried_witness :
  open_calls (trace (snd (after_listens absent_device hello_model 3
                            (recognizer_with seconds_5, initial_world)))) = 3%nat.
Proof.
  apply (failed_open_is_retried absent_device hello_model
           (recognizer_with seconds_5) initial_world 3).
  - intros t a. eexists. reflexivity.
  - reflexivity.
Defined.

(** ** Durations that are not positive *)





(** ** The log file while handlers are constructed *)






(** ** The handler around a recognizer *)

Section Transparency.

Context (dev : Device) (mdl : Model).

(** The recognizer does not look at the logging state. *)
Lemma record_outcome_logged f h self w :
  record_outcome dev h self (logged f w) =
    (fst (record_outcome dev h self w),
     (fst (snd (record_outcome dev h self w)),
      logged f (snd (snd (record_outcome dev h self w))))).
Proof. unfold record_outcome. destruct (n_chunks self); reflexivity. Qed.

Lemma record_audio_logged f self w :
  _record_audio dev (self, logged f w) =
    (fst (_record_audio dev (self, w)),
     (fst (snd (_record_audio dev (self, w))),
      logged f (snd (snd (_record_audio dev (self, w)))))).
Proof.
  destruct (stream self) as [h|] eqn:Hs.
  - rewrite !(record_audio_open dev self _ h Hs). apply record_outcome_logged.
  - rewrite !(record_audio_closed dev self _ Hs). cbn [logged trace].
    destruct (audio_open dev (trace w) (stream_args self)) as [h|e]; [|reflexivity].
    apply (record_outcome_logged f h (set_stream (Some h) self)
             (log_event (EvOpen (stream_args self) (Ok h)) w)).
Qed.

Lemma listen_logged f self w :
  WhisperRecognizer_listen dev mdl (self, logged f w) =
    (fst (WhisperRecognizer_listen dev mdl (self, w)),
     (fst (snd (WhisperRecognizer_listen dev mdl (self, w))),
      logged f (snd (snd (WhisperRecognizer_listen dev mdl (self, w)))))).
Proof.
  rewrite !listen_run. unfold listen_body, bind. rewrite record_audio_logged.
  destruct (_record_audio dev (self, w)) as [[audio|e] [self1 w1]]; [|reflexivity].
  cbn [fst snd]. unfold transcribe_audio. run_py. cbn [logged trace].
  destruct (transcribe mdl (trace w1) audio whisper_opts) as [res|e];
    [destruct (py_getitem res "text") as [item|e];
     [destruct (py_strip item) as [text|e]|]|];
    cbn [fst snd logged report_failure trace stdout stderr log_state]; reflexivity.
Qed.

(** [SpeechHandler.listen] around a [WhisperRecognizer], in one step. *)
Lemma handler_listen_whisper_run handler self w :
  exists text,
    fst (WhisperRecognizer_listen dev mdl (self, w)) = Ok text /\
    handler_listen dev mdl handler (self, w) =
      (Ok text,
       (fst (snd (WhisperRecognizer_listen dev mdl (self, w))),
        logged (logging.info (logger handler) ("Heard: " ++ text))
          (logged (logging.info (logger handler) "Starting to listen...")
             (snd (snd (WhisperRecognizer_listen dev mdl (self, w))))))).
Proof.
  destruct (listen_total dev mdl (self, w)) as [text Ht]. exists text.
  split; [exact Ht|].
  unfold handler_listen. rewrite handler_listen_run.
  cbn [listen WhisperRecognizer_SpeechRecognizer]. rewrite listen_logged, Ht.
  reflexivity.
Qed.



End Transparency.

(** X11.  Wrapping a [WhisperRecognizer] in a [SpeechHandler] changes
    nothing but the log: [handler.listen()] returns the text the recognizer
    alone would return from the same state, leaves the recognizer as that
    call would, makes the same calls to the device and the model and prints
    the same lines. *)
Theorem handler_changes_only_the_log :
  forall (dev : Device) (mdl : Model) (handler : SpeechHandler)
         (self : WhisperRecognizer) (w : World),
    let via := handler_listen dev mdl handler (self, w) in
    let direct := WhisperRecognizer_listen dev mdl (self, w) in
    fst via = fst direct /\
    fst (snd via) = fst (snd direct) /\
    trace (snd (snd via)) = trace (snd (snd direct)) /\
    stdout (snd (snd via)) = stdout (snd (snd direct)) /\
    stderr (snd (snd via)) = stderr (snd (snd direct)).
Proof.
  intros dev mdl handler self w via direct. subst via direct.
  destruct (handler_listen_whisper_run dev mdl handler self w) as (text & Ht & ->).
  rewrite Ht. repeat split.
Qed.

(** ** The script *)



(** ** Scaling keeps the samples apart *)

(** X13.  The scaling to [float32] is strictly increasing on the raw
    [int16] values, as exact values go, so two different raw samples never
    end up as the same sample of the buffer. *)
Theorem normalization_is_strictly_increasing :
  forall x y : Z,
    is_int16 x -> is_int16 y ->
    (exists qx qy,
        SF2Q (normalize_sample x) = Some qx /\
        SF2Q (normalize_sample y) = Some qy /\
        (x < y <-> (qx < qy)%Q)) /\
    (normalize_sample x = normalize_sample y -> x = y).
Proof.
  intros x y Hx Hy.
  destruct (sample_ok_spec x (sample_ok_int16 x Hx)) as (_ & qx & Hqx & Ex).
  destruct (sample_ok_spec y (sample_ok_int16 y Hy)) as (_ & qy & Hqy & Ey).
  split.
  - exists qx, qy. split; [exact Hqx|]. split; [exact Hqy|].
    rewrite Ex, Ey. unfold Qlt. cbn [Qnum Qden]. lia.
  - intros Heq. rewrite Heq, Hqy in Hqx. injection Hqx as Hq.
    assert (H : (x # 32768 == y # 32768)%Q) by (rewrite <- Ex, <- Ey, Hq; reflexivity).
    unfold Qeq in H. cbn [Qnum Qden] in H. lia.
Qed.

Lemma normalization_is_strictly_increasing_witness :
  exists qx qy,
    SF2Q (normalize_sample (-1)) = Some qx /\
    SF2Q (normalize_sample 1) = Some qy /\
    (qx < qy)%Q.
Proof.
  destruct (normalization_is_strictly_increasing (-1) 1) as [(qx & qy & Hx & Hy & H) _];
    [unfold is_int16; lia|unfold is_int16; lia|].
  exists qx, qy. split; [exact Hx|]. split; [exact Hy|]. apply H. lia.
Defined.
